(** * generate_apps.py: folder-name parsing, topic counting and app generation

    A shallow embedding of the metadata logic of [generate_apps.py] and of the
    control flow of [generate_app] / [generate_all_apps], with the properties
    its specification states about them.

    Modelling conventions.
    - A Python [str] is a [string]: a sequence of code points below 256.  On
      this range the class [\d] of the [re] module is exactly [0-9].
    - A Python [int] that counts topics is a [nat]; it has no bound, but
      [int] refuses to read a word of more than 4300 digits.
    - A [dict] loaded from JSON is a [gmap string json].
    - Exceptions are values of [exn]; a computation that may raise returns
      [result].  Every call that reaches the file system or the console may
      raise: [exists] and [is_dir] as well as [print]. *)

From Stdlib Require Import Ascii String DecimalString DecimalNat.
From stdpp Require Import base option list gmap strings sorting.


(** ** Characters and strings *)

Module Str.

Definition newline : ascii := "010"%char.
Definition underscore : ascii := "_"%char.
Definition dash : ascii := "-"%char.

(** [\d] on code points below 256. *)
Definition is_digit (c : ascii) : bool :=
  (48 <=? nat_of_ascii c) && (nat_of_ascii c <=? 57).

(** [.] without DOTALL: anything but a line feed. *)
Definition is_dot (c : ascii) : bool := negb (Ascii.eqb c newline).

Fixpoint all (p : ascii -> bool) (s : string) : bool :=
  match s with
  | EmptyString => true
  | String c t => p c && all p t
  end.

Fixpoint drop (n : nat) (s : string) : string :=
  match n, s with
  | 0, _ => s
  | S n', EmptyString => EmptyString
  | S n', String _ t => drop n' t
  end.

End Str.

(** ** Exceptions and results *)

(** The exception classes the program raises or meets, each with the text
    [str(e)] gives.  All of them derive from [Exception]; what does not
    ([KeyboardInterrupt], [SystemExit]) comes from outside the program and
    is not modelled. *)
Inductive exn : Type :=
| FileNotFoundError (text : string)
| ValueError (text : string)
| TypeError (text : string)
| KeyError (text : string)
| OtherError (class text : string).

Definition str_of_exn (e : exn) : string :=
  match e with
  | FileNotFoundError t | ValueError t | TypeError t | KeyError t
  | OtherError _ t => t
  end.

Inductive result (A : Type) : Type :=
| Ok (a : A)
| Raise (e : exn).
Arguments Ok {A} a.
Arguments Raise {A} e.

#[export] Instance result_ret : MRet result := fun A a => Ok a.
#[export] Instance result_bind : MBind result := fun A B f r =>
  match r with
  | Ok a => f a
  | Raise e => Raise e
  end.

(** ** The [re] engine

    A backtracking matcher with the priorities of Python's [re]: the left
    branch of an alternation first, a greedy [+] tries one more iteration
    before it tries to go on.  Only the constructs of the pattern of
    [parse_folder_name] are present. *)

Module Re.

Inductive regex : Type :=
| Eps                          (* the empty pattern *)
| Chr (c : ascii)              (* a literal character *)
| Any                          (* .   *)
| Digit                        (* \d  *)
| Bol                          (* ^   *)
| Eol                          (* $   *)
| Seq (r1 r2 : regex)
| Alt (r1 r2 : regex)          (* r1|r2 *)
| Plus (r : regex)             (* r+, greedy *)
| Group (i : nat) (r : regex). (* (r), numbered i *)

(** A literal word is the sequence of its characters. *)
Fixpoint Lit (w : string) : regex :=
  match w with
  | EmptyString => Eps
  | String c t => Seq (Chr c) (Lit t)
  end.

(** The spans of the groups matched so far: group number to (start, end). *)
Abbreviation spans := (gmap nat (nat * nat)).

(** The rest of the match: position, remaining input, spans. *)
Definition cont : Type := nat -> string -> spans -> option spans.

Definition one (p : ascii -> bool) (pos : nat) (rest : string)
    (g : spans) (k : cont) : option spans :=
  match rest with
  | String c t => if p c then k (S pos) t g else None
  | EmptyString => None
  end.

(** A greedy [+] around [body]: after an iteration, one more is tried
    first, and the rest of the pattern only if that fails.  An iteration
    that consumed nothing ends the repetition. *)
Fixpoint plus_loop (body : nat -> string -> spans -> cont -> option spans)
    (k : cont) (fuel : nat) (pos : nat) (rest : string) (g : spans)
    {struct fuel} : option spans :=
  body pos rest g (fun pos' rest' g' =>
    match fuel with
    | 0 => k pos' rest' g'
    | S fuel' =>
        if pos' <=? pos then k pos' rest' g'
        else match plus_loop body k fuel' pos' rest' g' with
             | Some m => Some m
             | None => k pos' rest' g'
             end
    end).

Fixpoint run (r : regex) (pos : nat) (rest : string) (g : spans)
    (k : cont) {struct r} : option spans :=
  match r with
  | Eps => k pos rest g
  | Chr c => one (Ascii.eqb c) pos rest g k
  | Any => one Str.is_dot pos rest g k
  | Digit => one Str.is_digit pos rest g k
  | Bol => if pos =? 0 then k pos rest g else None
  | Eol =>
      (* without MULTILINE: at the end, or before a final line feed *)
      match rest with
      | EmptyString => k pos rest g
      | String c EmptyString =>
          if Ascii.eqb c Str.newline then k pos rest g else None
      | _ => None
      end
  | Seq r1 r2 =>
      run r1 pos rest g (fun pos' rest' g' => run r2 pos' rest' g' k)
  | Alt r1 r2 =>
      match run r1 pos rest g k with
      | Some m => Some m
      | None => run r2 pos rest g k
      end
  | Plus r1 => plus_loop (run r1) k (String.length rest) pos rest g
  | Group i r1 =>
      run r1 pos rest g (fun pos' rest' g' =>
        k pos' rest' (<[i := (pos, pos')]> g'))
  end.

(** [re.match(pattern, s)]: the pattern has to match at position 0 and may
    stop anywhere. *)
Definition rematch (pattern : regex) (s : string) : option spans :=
  run pattern 0 s ∅ (fun _ _ g => Some g).

(** [m.group(i)] of a match on [s]; [None] for a group that did not take
    part. *)
Definition group (s : string) (m : spans) (i : nat) : option string :=
  match m !! i with
  | Some (b, e) => Some (String.substring b (e - b) s)
  | None => None
  end.

(** *** What a match is

    [Matches r pos w rest g g']: at position [pos], with [w +:+ rest]
    ahead, [r] can consume [w], and takes the spans from [g] to [g']. *)
Inductive Matches
  : regex -> nat -> string -> string -> spans -> spans -> Prop :=
| M_Eps pos rest g : Matches Eps pos "" rest g g
| M_Chr c pos rest g : Matches (Chr c) pos (String c "") rest g g
| M_Any c pos rest g :
    Str.is_dot c = true -> Matches Any pos (String c "") rest g g
| M_Digit c pos rest g :
    Str.is_digit c = true -> Matches Digit pos (String c "") rest g g
| M_Bol rest g : Matches Bol 0 "" rest g g
| M_Eol pos rest g :
    rest = "" \/ rest = String Str.newline "" ->
    Matches Eol pos "" rest g g
| M_Seq r1 r2 pos w1 w2 rest g g1 g2 :
    Matches r1 pos w1 (w2 +:+ rest) g g1 ->
    Matches r2 (pos + String.length w1) w2 rest g1 g2 ->
    Matches (Seq r1 r2) pos (w1 +:+ w2) rest g g2
| M_Alt_l r1 r2 pos w rest g g' :
    Matches r1 pos w rest g g' -> Matches (Alt r1 r2) pos w rest g g'
| M_Alt_r r1 r2 pos w rest g g' :
    Matches r2 pos w rest g g' -> Matches (Alt r1 r2) pos w rest g g'
| M_Plus_last r pos w rest g g' :
    Matches r pos w rest g g' -> Matches (Plus r) pos w rest g g'
| M_Plus_more r pos w1 w2 rest g g1 g2 :
    Matches r pos w1 (w2 +:+ rest) g g1 ->
    Matches (Plus r) (pos + String.length w1) w2 rest g1 g2 ->
    Matches (Plus r) pos (w1 +:+ w2) rest g g2
| M_Group i r pos w rest g g' :
    Matches r pos w rest g g' ->
    Matches (Group i r) pos w rest g
      (<[i := (pos, pos + String.length w)]> g').

End Re.

(** ** Descriptors *)

Record metadata : Type := Metadata {
  dataset : string;
  method : string;
  topic_count : nat
}.

(** [metadata['topic_count'] = n] *)
Definition set_topic_count (md : metadata) (n : nat) : metadata :=
  Metadata (dataset md) (method md) n.

(** The value of a word of decimal digits. *)
Fixpoint int_of_digits_from (acc : nat) (w : string) : nat :=
  match w with
  | EmptyString => acc
  | String c t => int_of_digits_from (10 * acc + (nat_of_ascii c - 48)) t
  end.

Definition int_of_digits (w : string) : nat := int_of_digits_from 0 w.

(** ** JSON documents and the Python operations applied to them *)

(** What [json.load] returns.  A float is kept as its literal: the program
    never computes with one. *)
#[warnings="-register-all"]
Inductive json : Type :=
| JNull
| JBool (b : bool)
| JInt (n : Z)
| JFloat (literal : string)
| JStr (s : string)
| JArr (items : list json)
| JObj (members : gmap string json).

Module Py.

(** [sub in s] on strings. *)
Fixpoint contains (sub s : string) : bool :=
  String.prefix sub s ||
  match s with
  | EmptyString => false
  | String _ t => contains sub t
  end.

Definition type_name (v : json) : string :=
  match v with
  | JNull => "NoneType"
  | JBool _ => "bool"
  | JInt _ => "int"
  | JFloat _ => "float"
  | JStr _ => "str"
  | JArr _ => "list"
  | JObj _ => "dict"
  end.

(** [key in v] for a string [key]. *)
Definition in_ (key : string) (v : json) : result bool :=
  match v with
  | JObj m => Ok (bool_decide (is_Some (m !! key)))
  | JArr l =>
      Ok (existsb (fun x => match x with
                            | JStr s => String.eqb s key
                            | _ => false
                            end) l)
  | JStr s => Ok (contains key s)
  | _ => Raise (TypeError ("argument of type '" +:+ type_name v
                           +:+ "' is not iterable"))
  end.

(** [v[key]] for a string [key]. *)
Definition getitem (v : json) (key : string) : result json :=
  match v with
  | JObj m =>
      match m !! key with
      | Some x => Ok x
      | None => Raise (KeyError ("'" +:+ key +:+ "'"))
      end
  | JArr _ => Raise (TypeError "list indices must be integers or slices, not str")
  | JStr _ => Raise (TypeError "string indices must be integers, not 'str'")
  | _ => Raise (TypeError ("'" +:+ type_name v
                           +:+ "' object is not subscriptable"))
  end.

(** [len(v)]. *)
Definition len (v : json) : result nat :=
  match v with
  | JObj m => Ok (size m)
  | JArr l => Ok (length l)
  | JStr s => Ok (String.length s)
  | _ => Raise (TypeError ("object of type '" +:+ type_name v
                           +:+ "' has no len()"))
  end.

(** [str(n)] for a non-negative [int]. *)
Definition str_of_nat (n : nat) : string :=
  NilZero.string_of_uint (Nat.to_uint n).

(** [int(w)] for a word of decimal digits, which is all that
    [parse_folder_name] passes to it: group 3 matches [\d+].  The
    interpreter (CPython 3.11 and later, and the maintenance releases of
    the older lines since September 2022) refuses a word of more than
    [sys.get_int_max_str_digits()] digits, 4300 unless it is changed, which
    the program does not do; leading zeros count. *)
Definition max_str_digits : nat := 4300.

Definition int (w : string) : result nat :=
  if max_str_digits <? String.length w then
    Raise (ValueError
             ("Exceeds the limit (4300 digits) for integer string conversion: "
              +:+ "value has " +:+ str_of_nat (String.length w)
              +:+ " digits; use sys.set_int_max_str_digits() "
              +:+ "to increase the limit"))
  else Ok (int_of_digits w).

(** [s.replace(old, new)], for a non-empty [old]: the occurrences of [old]
    are found from the left and do not overlap. *)
Fixpoint replace_go (fuel : nat) (old new s : string) : string :=
  match fuel with
  | 0 => s
  | S fuel' =>
      match s with
      | EmptyString => EmptyString
      | String c t =>
          if String.prefix old s
          then new +:+ replace_go fuel' old new (Str.drop (String.length old) s)
          else String c (replace_go fuel' old new t)
      end
  end.

(** With an empty [old], [new] goes before every character and at the
    end. *)
Fixpoint intersperse (new s : string) : string :=
  match s with
  | EmptyString => new
  | String c t => new +:+ String c (intersperse new t)
  end.

Definition replace (old new s : string) : string :=
  match old with
  | EmptyString => intersperse new s
  | _ => replace_go (String.length s) old new s
  end.

(** [s * n] *)
Fixpoint repeat (s : string) (n : nat) : string :=
  match n with
  | 0 => EmptyString
  | S n' => s +:+ repeat s n'
  end.

(** [sorted(l)] by the comparison [lt]: a stable insertion sort. *)
Section Sorted.
Context {A : Type} (lt : A -> A -> bool).

Fixpoint insert (x : A) (l : list A) : list A :=
  match l with
  | [] => [x]
  | y :: t => if lt y x then y :: insert x t else x :: y :: t
  end.

Definition sorted (l : list A) : list A := foldr insert [] l.
End Sorted.

(** The truth value of an optional string argument: [None] and [''] are
    false. *)
Definition truthy (o : option string) : bool :=
  match o with
  | Some (String _ _) => true
  | _ => false
  end.

End Py.

(** ** [parse_folder_name] *)

(** [r'^(.+)_with_pagerank_(nmtf|pnmf)_bpe_(\d+)$'] *)
Definition pattern : Re.regex :=
  Re.Seq Re.Bol
    (Re.Seq (Re.Group 1 (Re.Plus Re.Any))
       (Re.Seq (Re.Lit "_with_pagerank_")
          (Re.Seq (Re.Group 2 (Re.Alt (Re.Lit "nmtf") (Re.Lit "pnmf")))
             (Re.Seq (Re.Lit "_bpe_")
                (Re.Seq (Re.Group 3 (Re.Plus Re.Digit)) Re.Eol))))).

(** The three groups take part in every match of the pattern
    ([parse_folder_name_of_match]); the last case cannot happen. *)
Definition parse_folder_name (folder_name : string)
    : result (option metadata) :=
  match Re.rematch pattern folder_name with
  | None => Ok None
  | Some m =>
      match Re.group folder_name m 1, Re.group folder_name m 2,
            Re.group folder_name m 3 with
      | Some g1, Some g2, Some g3 =>
          topic_count ← Py.int g3;
          Ok (Some (Metadata g1 g2 topic_count))
      | _, _, _ => Ok None
      end
  end.

(** ** The naming grammar, as the specification words it

    [{d}_with_pagerank_{m}_bpe_{n}] with [m] one of [nmtf], [pnmf] and [n] a
    non-negative integer literal. *)

Definition folder_name_of (d m n : string) : string :=
  d +:+ "_with_pagerank_" +:+ m +:+ "_bpe_" +:+ n.

Definition is_method (m : string) : Prop := m = "nmtf" \/ m = "pnmf".

Definition is_literal (n : string) : Prop :=
  n <> "" /\ Str.all Str.is_digit n = true.

(** [rest] is [_with_pagerank_{m}_bpe_{n}]. *)
Definition grammar_tail (rest : string) : bool :=
  String.prefix "_with_pagerank_" rest &&
  let r := Str.drop 15 rest in
  (String.prefix "nmtf" r || String.prefix "pnmf" r) &&
  String.prefix "_bpe_" (Str.drop 4 r) &&
  let n := Str.drop 9 r in
  negb (String.eqb n "") && Str.all Str.is_digit n.

(** Some split of [s] makes it a name of the grammar, whatever [d] is. *)
Fixpoint matches_grammar (s : string) : bool :=
  grammar_tail s ||
  match s with
  | EmptyString => false
  | String _ t => matches_grammar t
  end.

(** The same, said with the three parts. *)
Definition in_grammar (s : string) : Prop :=
  exists d m n, s = folder_name_of d m n /\ is_method m /\ is_literal n.

(** [s] without its last character when that is a line feed. *)
Fixpoint chomp (s : string) : string :=
  match s with
  | EmptyString => EmptyString
  | String c EmptyString =>
      if Ascii.eqb c Str.newline then EmptyString else s
  | String c t => String c (chomp t)
  end.

(** A digit or the line feed: what a matched name ends with. *)
Definition is_tail (c : ascii) : bool :=
  Str.is_digit c || Ascii.eqb c Str.newline.

(** ** [get_topic_count] *)

Definition get_topic_count (data : json) : result nat :=
  has_relevance ← Py.in_ "relevance" data;
  if has_relevance : bool then
    relevance ← Py.getitem data "relevance";
    Py.len relevance
  else
    has_gensim ← Py.in_ "gensim" data;
    has_c_v ← (if has_gensim : bool then
                 gensim ← Py.getitem data "gensim";
                 Py.in_ "c_v_per_topic" gensim
               else Ok false);
    if has_c_v : bool then
      gensim ← Py.getitem data "gensim";
      c_v_per_topic ← Py.getitem gensim "c_v_per_topic";
      Py.len c_v_per_topic
    else Ok 0.

(** ** The metadata [generate_app] starts from

    The [if prefix and method and dataset: ... else: ...] of [generate_app]:
    the metadata and the prefix of the file names, from the three optional
    arguments when all of them are given and non-empty, from the folder name
    otherwise. *)
Definition initial_metadata (folder_name : string)
    (prefix method dataset : option string) : result (metadata * string) :=
  if Py.truthy prefix && Py.truthy method && Py.truthy dataset then
    Ok (Metadata (default "" dataset) (default "" method) 0,
        default "" prefix)
  else
    metadata ← parse_folder_name folder_name;
    match metadata with
    | None => Raise (ValueError ("Invalid folder name format: " +:+ folder_name))
    | Some metadata => Ok (metadata, folder_name)
    end.

(** ** [generate_output_dir_name] *)

Definition generate_output_dir_name (md : metadata) : string :=
  let dataset := Py.replace "_" "-" (dataset md) in
  let method := method md in
  let topic_count := topic_count md in
  dataset +:+ "-" +:+ method +:+ "-" +:+ Py.str_of_nat topic_count.

(** "Every underscore replaced by a dash", one character at a time. *)
Fixpoint dashed (s : string) : string :=
  match s with
  | EmptyString => EmptyString
  | String c t =>
      String (if Ascii.eqb c Str.underscore then Str.dash else c) (dashed t)
  end.

(** ** The environment: [pathlib], the file system, the console

    [generate_app] and [generate_all_apps] are written against the operations
    below.  Their meaning is that of the Python library and of the host; the
    program is modelled for every choice of them. *)

(** The rows [csv.DictReader] yields. *)
Definition csv_rows : Type := list (list (string * string)).

(** What the program writes with [write_text]: the module's template
    constants and the values its template functions are applied to. *)
Inductive content : Type :=
| CSS_CONTENT
| TOPICS_JS
| APP_JS
| charts_js (topic_count : nat)
| index_html (method_upper : string) (topic_count : nat)
    (dataset_title : string) (has_violin_plot has_umap : bool)
| topic_graph_html (csv_data : csv_rows) (method_upper : string)
    (topic_count : nat).

Section Program.

Context {path world : Type}.

(** What the program does to the outside, in order. *)
Inductive event : Type :=
| Stdout (line : string)                (* print *)
| Mkdir (p : path)                     (* mkdir(parents=True, exist_ok=True) *)
| WriteText (p : path) (c : content)
| Copy (src dst : path).               (* shutil.copy *)

Record Os : Type := {
  (* pathlib *)
  Path : string -> path;
  is_absolute : path -> bool;
  joinpath : path -> string -> path;   (* p / s *)
  name : path -> string;
  str : path -> string;
  path_lt : path -> path -> bool;      (* p < q *)
  BASE_DIR : path;                     (* Path(__file__).parent *)
  (* str methods of the interpreter *)
  upper : string -> string;
  title : string -> string;
  (* reading the file system; [exists] and [is_dir] answer [False] for a
     path that is not there and raise the [OSError] of any other failure *)
  path_exists : world -> path -> result bool;
  is_dir : world -> path -> result bool;
  iterdir : world -> path -> result (list path);
  glob : world -> path -> string -> result (list path);
  json_load : world -> path -> result json;          (* open, json.load *)
  csv_read : world -> path -> result csv_rows;       (* open, csv.DictReader *)
  (* writing the file system: the new world, and the exception if any *)
  mkdir : path -> world -> world * option exn;
  write_text : path -> content -> world -> world * option exn;
  copy : path -> path -> world -> world * option exn;
  (* writing a line to the console *)
  stdout_write : string -> world -> world * option exn
}.

Context (os : Os).

#[local] Notation "p // s" := (joinpath os p s)
  (at level 40, left associativity).

(** *** State and exceptions *)

Record state : Type := State {
  fs : world;
  out : list event
}.

Definition M (A : Type) : Type := state -> state * result A.

#[export] Instance M_ret : MRet M := fun A a s => (s, Ok a).
#[export] Instance M_bind : MBind M := fun A B f m s =>
  match m s with
  | (s', Ok a) => f a s'
  | (s', Raise e) => (s', Raise e)
  end.

Definition raise {A : Type} (e : exn) : M A := fun s => (s, Raise e).

Definition lift {A : Type} (r : result A) : M A := fun s => (s, r).


Definition look_r {A : Type} (f : world -> result A) : M A :=
  fun s => (s, f (fs s)).

(** An operation on the outside: the event goes on the trace when the
    operation is tried, whether it raises or not. *)
Definition act (ev : event) (f : world -> world * option exn) : M unit :=
  fun s =>
    let (w, r) := f (fs s) in
    (State w (out s ++ [ev]),
     match r with
     | None => Ok tt
     | Some e => Raise e
     end).


(** [try: m  except Exception as e: h e] *)
Definition try_except {A : Type} (m : M A) (h : exn -> M A) : M A :=
  fun s =>
    match m s with
    | (s', Ok a) => (s', Ok a)
    | (s', Raise e) => h e s'
    end.

Definition when (b : bool) (m : M unit) : M unit :=
  if b then m else mret tt.

Fixpoint for_each {A : Type} (l : list A) (body : A -> M unit) : M unit :=
  match l with
  | [] => mret tt
  | x :: t => body x ;; for_each t body
  end.

Definition do_mkdir (p : path) : M unit := act (Mkdir p) (mkdir os p).
Definition do_write_text (p : path) (c : content) : M unit :=
  act (WriteText p c) (write_text os p c).
Definition do_copy (src dst : path) : M unit :=
  act (Copy src dst) (copy os src dst).
Definition do_exists (p : path) : M bool :=
  look_r (fun w => path_exists os w p).
Definition print (line : string) : M unit :=
  act (Stdout line) (stdout_write os line).

(** *** [find_data_file] and [load_topic_data] *)

Definition find_data_file (source_dir : path) (prefix : string)
    : M (option path) :=
  let coherence_file := source_dir // (prefix +:+ "_coherence_scores.json") in
  e1 ← do_exists coherence_file;
  if e1 : bool then mret (Some coherence_file)
  else
    let relevance_file :=
      source_dir // (prefix +:+ "_relevance_top_words.json") in
    e2 ← do_exists relevance_file;
    if e2 : bool then mret (Some relevance_file)
    else mret None.

Definition load_topic_data (data_file : path) : M json :=
  look_r (fun w => json_load os w data_file).

(** *** [generate_app] *)

(** The idiom [p = Path(s)], then [p = BASE_DIR / s] unless [p] is
    absolute. *)
Definition under_base (s : string) : path :=
  let p := Path os s in
  if is_absolute os p then p else BASE_DIR os // s.

(** What the first half of [generate_app] hands to the second. *)
Record prepared : Type := Prepared {
  source_path : path;
  prefix : string;
  data_file : path;
  meta : metadata;
  count : nat
}.

(** [generate_app] up to [metadata['topic_count'] = topic_count]. *)
Definition generate_app_metadata (source_folder : string)
    (prefix method dataset : option string) : M prepared :=
  let source_path := under_base source_folder in
  found ← do_exists source_path;
  if negb found then
    raise (FileNotFoundError
             ("Source folder not found: " +:+ str os source_path))
  else
    let folder_name := name os source_path in
    '(metadata, prefix) ←
      lift (initial_metadata folder_name prefix method dataset);
    data_file ← find_data_file source_path prefix;
    match data_file with
    | None =>
        raise (FileNotFoundError
                 ("No data file found in " +:+ str os source_path))
    | Some data_file =>
        topic_data ← load_topic_data data_file;
        topic_count ← lift (get_topic_count topic_data);
        if topic_count =? 0 then
          raise (ValueError "Could not determine topic count from data")
        else
          mret (Prepared source_path prefix data_file
                  (set_topic_count metadata topic_count) topic_count)
    end.

(** The idiom [if src.exists(): shutil.copy(src, dst)]. *)
Definition copy_if_exists (src dst : path) : M unit :=
  found ← do_exists src;
  when found (do_copy src dst).

(** The loop over [tsne_patterns]; the result is [tsne_copied]. *)
Fixpoint copy_first_tsne (source_path output_path : path)
    (tsne_patterns : list string) : M bool :=
  match tsne_patterns with
  | [] => mret false
  | tsne_name :: rest =>
      let tsne_src := source_path // tsne_name in
      found ← do_exists tsne_src;
      if found : bool then
        do_copy tsne_src (output_path // "images" // "tsne.png");;
        mret true
      else copy_first_tsne source_path output_path rest
  end.

(** [generate_app] from the choice of the output directory on. *)
Definition generate_app_output (output_dir : option string) (a : prepared)
    : M string :=
  let source_path := source_path a in
  let prefix := prefix a in
  let metadata := meta a in
  let topic_count := count a in
  let output_path :=
    if Py.truthy output_dir then under_base (default "" output_dir)
    else BASE_DIR os // generate_output_dir_name metadata in
  let method_upper := upper os (method metadata) in
  let dataset_title := title os (Py.replace "_" " " (dataset metadata)) in
  print (String Str.newline (Py.repeat "=" 60));;
  print ("Creating " +:+ method_upper +:+ " app ("
         +:+ Py.str_of_nat topic_count +:+ " topics) in "
         +:+ str os output_path);;
  print (Py.repeat "=" 60);;
  do_mkdir (output_path // "css");;
  do_mkdir (output_path // "js");;
  do_mkdir (output_path // "data");;
  do_mkdir (output_path // "images" // "wordclouds");;
  print "  Writing CSS...";;
  do_write_text (output_path // "css" // "styles.css") CSS_CONTENT;;
  print "  Writing JavaScript files...";;
  do_write_text (output_path // "js" // "topics.js") TOPICS_JS;;
  do_write_text (output_path // "js" // "charts.js") (charts_js topic_count);;
  do_write_text (output_path // "js" // "app.js") APP_JS;;
  print "  Copying data files...";;
  do_copy (data_file a) (output_path // "data" // "coherence_scores.json");;
  copy_if_exists (source_path // (prefix +:+ "_diversity_scores.json"))
    (output_path // "data" // "diversity_scores.json");;
  copy_if_exists (source_path // (prefix +:+ "_top_docs.json"))
    (output_path // "data" // "top_docs.json");;
  print "  Copying images...";;
  copy_if_exists (source_path // (prefix +:+ "_document_dist.png"))
    (output_path // "images" // "document_dist.png");;
  copy_if_exists
    (source_path // (prefix +:+ "_temporal_topic_dist_quarter_line.png"))
    (output_path // "images" // "temporal_line.png");;
  copy_if_exists
    (source_path
       // (prefix +:+ "_temporal_topic_dist_quarter_stacked_area.png"))
    (output_path // "images" // "temporal_area.png");;
  copy_if_exists
    (source_path // (prefix +:+ "_topic_distribution_by_year.png"))
    (output_path // "images" // "yearly_dist.png");;
  tsne_copied ← copy_first_tsne source_path output_path
    [prefix +:+ "_tsne_visualization.png"; prefix +:+ "_tsne.png";
     "tsne.png"];
  when (negb tsne_copied)
    (print "  Note: t-SNE image not found in source folder");;
  umap1 ← look_r (fun w => glob os w source_path "*umap*visualization*.png");
  umap2 ← look_r (fun w => glob os w source_path "*umap*.png");
  has_umap ←
    match umap1 ++ umap2 with
    | [] => mret false
    | umap :: _ =>
        do_copy umap (output_path // "images" // "umap.png");;
        print ("  Copied UMAP visualization: " +:+ name os umap);;
        mret true
    end;
  let wordclouds_src := source_path // "wordclouds" in
  found ← do_exists wordclouds_src;
  when found
    (wordclouds ← look_r (fun w => glob os w wordclouds_src "Topic *.png");
     for_each wordclouds (fun wc =>
       do_copy wc (output_path // "images" // "wordclouds" // name os wc)));;
  violin_patterns ←
    look_r (fun w => glob os w source_path "*violin*interactive*.html");
  has_violin_plot ←
    match violin_patterns with
    | [] => mret false
    | violin_src :: _ =>
        do_copy violin_src (output_path // "violin-plot.html");;
        print ("  Copied violin plot: " +:+ name os violin_src);;
        mret true
    end;
  print "  Generating index.html...";;
  do_write_text (output_path // "index.html")
    (index_html method_upper topic_count dataset_title has_violin_plot
       has_umap);;
  print "  Generating topic-graph.html...";;
  let csv_path :=
    source_path // (prefix +:+ "_temporal_topic_dist_quarter.csv") in
  found ← do_exists csv_path;
  (if found : bool then
     csv_data ← look_r (fun w => csv_read os w csv_path);
     do_write_text (output_path // "topic-graph.html")
       (topic_graph_html csv_data method_upper topic_count)
   else
     print ("  Warning: CSV file not found: " +:+ str os csv_path));;
  print ("  Done creating " +:+ method_upper +:+ " app with "
         +:+ Py.str_of_nat topic_count +:+ " topics!");;
  mret (str os output_path).

Definition generate_app (source_folder : string)
    (output_dir prefix method dataset : option string) : M string :=
  a ← generate_app_metadata source_folder prefix method dataset;
  generate_app_output output_dir a.

(** *** [generate_all_apps] *)

(** The body of the [for] loop, with the list [generated] passed along. *)
Fixpoint all_apps_loop (folders : list path) (generated : list string)
    : M (list string) :=
  match folders with
  | [] => mret generated
  | folder :: rest =>
      dir ← look_r (fun w => is_dir os w folder);
      if negb dir then all_apps_loop rest generated
      else
        metadata ← lift (parse_folder_name (name os folder));
        match metadata with
        | None => all_apps_loop rest generated
        | Some _ =>
            generated ←
              try_except
                (output ← generate_app (str os folder) None None None None;
                 mret (generated ++ [output]))
                (fun e =>
                   print ("Error processing " +:+ name os folder +:+ ": "
                          +:+ str_of_exn e);;
                   mret generated);
            all_apps_loop rest generated
        end
  end.

Definition generate_all_apps (source_dir : string) : M (list string) :=
  let source_path := under_base source_dir in
  found ← do_exists source_path;
  if negb found then
    raise (FileNotFoundError
             ("Source directory not found: " +:+ str os source_path))
  else
    listing ← look_r (fun w => iterdir os w source_path);
    all_apps_loop (Py.sorted (path_lt os) listing) [].

End Program.

Arguments event : clear implicits.
Arguments Os : clear implicits.
Arguments state : clear implicits.
Arguments prepared : clear implicits.
Arguments M : clear implicits.

(** ** What [generate_all_apps] does with a listing, folder by folder *)

Section Folders.

Context {path world : Type} (os : Os path world).

(** One call of [generate_app] made by the loop, and how it ended. *)
Record attempt : Type := Attempt {
  folder : path;
  outcome : result string
}.

(** The output paths of the attempts that succeeded, in order. *)
Definition successes (atts : list attempt) : list string :=
  flat_map (fun a => match outcome a with
                     | Ok output => [output]
                     | Raise _ => []
                     end) atts.

(** What the loop asks about an entry before the [try]: is it a directory,
    and does [parse_folder_name] accept its name?  Both questions can
    raise. *)
Definition wanted (s : state path world) (f : path) : result bool :=
  dir ← is_dir os (fs s) f;
  if negb dir then Ok false
  else
    metadata ← parse_folder_name (name os f);
    Ok (bool_decide (is_Some metadata)).

(** The line on the console for a folder that failed. *)
Definition report (f : path) (e : exn) : string :=
  "Error processing " +:+ name os f +:+ ": " +:+ str_of_exn e.

(** [Processed folders s atts s' stop]: going through [folders] in order
    from the state [s] ends in [s'], and [atts] are the calls of
    [generate_app] made on the way: one for every wanted folder, none for
    the others, and the folders after a failed call are still gone through.
    With [stop = Some e] the loop was left by the exception [e]: of the
    questions asked about an entry, or of printing the line for a failed
    call; the entries after that one were not looked at. *)
Inductive Processed
  : list path -> state path world -> list attempt -> state path world
    -> option exn -> Prop :=
| P_done s : Processed [] s [] s None
| P_skip f rest s atts s' stop :
    wanted s f = Ok false ->
    Processed rest s atts s' stop ->
    Processed (f :: rest) s atts s' stop
| P_ok f rest s s1 output atts s' stop :
    wanted s f = Ok true ->
    generate_app os (str os f) None None None None s = (s1, Ok output) ->
    Processed rest s1 atts s' stop ->
    Processed (f :: rest) s (Attempt f (Ok output) :: atts) s' stop
| P_fail f rest s s1 e s2 atts s' stop :
    wanted s f = Ok true ->
    generate_app os (str os f) None None None None s = (s1, Raise e) ->
    print os (report f e) s1 = (s2, Ok tt) ->
    Processed rest s2 atts s' stop ->
    Processed (f :: rest) s (Attempt f (Raise e) :: atts) s' stop
| P_stop_entry f rest s e :
    wanted s f = Raise e ->
    Processed (f :: rest) s [] s (Some e)
| P_stop_print f rest s s1 e s2 e' :
    wanted s f = Ok true ->
    generate_app os (str os f) None None None None s = (s1, Raise e) ->
    print os (report f e) s1 = (s2, Raise e') ->
    Processed (f :: rest) s [Attempt f (Raise e)] s2 (Some e').

(** What [generate_all_apps] ends with after such a run. *)
Definition ending (atts : list attempt) (stop : option exn)
    : result (list string) :=
  match stop with
  | None => Ok (successes atts)
  | Some e => Raise e
  end.

End Folders.

Arguments attempt : clear implicits.

(** Any character but the underscore. *)
Definition no_underscore (c : ascii) : bool :=
  negb (Ascii.eqb c Str.underscore).

(** ** [generate_charts_js]: the palette

    The list handed to [json.dumps]; the text around it is a template. *)

Definition base_colors : list string :=
  [ "#2563eb"; "#7c3aed"; "#db2777"; "#dc2626"; "#ea580c";
    "#d97706"; "#ca8a04"; "#65a30d"; "#16a34a"; "#059669";
    "#0d9488"; "#0891b2"; "#0284c7"; "#2563eb"; "#4f46e5";
    "#7c3aed"; "#9333ea"; "#c026d3"; "#db2777"; "#e11d48";
    "#ef4444"; "#f97316"; "#eab308"; "#84cc16"; "#22c55e";
    "#14b8a6"; "#06b6d4"; "#0ea5e9"; "#3b82f6"; "#6366f1";
    "#8b5cf6"; "#a855f7"; "#d946ef"; "#ec4899"; "#f43f5e";
    "#fb7185"; "#fda4af"; "#fecdd3"; "#ffe4e6"; "#fecaca";
    "#fed7aa"; "#fef08a"; "#d9f99d"; "#bbf7d0"; "#99f6e4" ].

(** [while len(base_colors) < topic_count: base_colors.extend(base_colors)],
    with fuel for the number of turns. *)
Fixpoint extend_colors (fuel : nat) (colors : list string)
    (topic_count : nat) : list string :=
  match fuel with
  | 0 => colors
  | S fuel' =>
      if length colors <? topic_count
      then extend_colors fuel' (colors ++ colors) topic_count
      else colors
  end.

(** [base_colors[:max(topic_count, 25)]] after the loop. *)
Definition chart_colors (topic_count : nat) : list string :=
  take (max topic_count 25)
    (extend_colors topic_count base_colors topic_count).

(** ** [main] *)

Section Entry.

Context {path world : Type} (os : Os path world).

Definition main : M path world nat :=
  print os (Py.repeat "=" 60);;
  print os "Dynamic Topic Analysis App Generator";;
  print os (Py.repeat "=" 60);;
  generated ← generate_all_apps os "to_generate_from";
  print os (String Str.newline (Py.repeat "=" 60));;
  print os "Generation complete!";;
  print os (Py.repeat "=" 60);;
  print os (String Str.newline "Generated:");;
  for_each generated (fun path => print os ("  - " +:+ path));;
  mret 0.

End Entry.

(** ** What a run leaves on the trace *)

Section Traces.

Context {path world : Type} (os : Os path world).








(** The output directory [generate_app] works in. *)
Definition output_path_of (output_dir : option string) (md : metadata)
    : path :=
  if Py.truthy output_dir then under_base os (default "" output_dir)
  else joinpath os (BASE_DIR os) (generate_output_dir_name md).

End Traces.

(** ** A small host to run the program on

    Paths are slash-separated strings, the file system is a finite map from
    paths to nodes, every write succeeds and records the path written (a
    directory made is recorded without its parents), no file matches a
    glob pattern, the console takes every line.  Texts are ASCII. *)

Module Host.

Inductive node : Type :=
| Dir
| File (doc : option json)    (* the JSON document in the file, if it is one *)
| Denied.                     (* an entry that may not be examined *)

(** The exceptions of the file system, with the text of [str(e)]. *)
Definition denied (p : string) : exn :=
  OtherError "PermissionError"
    ("[Errno 13] Permission denied: '" +:+ p +:+ "'").

Definition missing (p : string) : exn :=
  FileNotFoundError ("[Errno 2] No such file or directory: '" +:+ p +:+ "'").

Definition not_a_directory (p : string) : exn :=
  OtherError "NotADirectoryError"
    ("[Errno 20] Not a directory: '" +:+ p +:+ "'").

Definition is_a_directory (p : string) : exn :=
  OtherError "IsADirectoryError"
    ("[Errno 21] Is a directory: '" +:+ p +:+ "'").

(** What [json.load] raises for a file that holds no document. *)
Definition no_document : exn :=
  OtherError "JSONDecodeError" "Expecting value: line 1 column 1 (char 0)".

Abbreviation world := (gmap string node).

Definition slash : ascii := "/"%char.

(** The part after the last slash. *)
Fixpoint basename (s : string) : string :=
  match s with
  | EmptyString => EmptyString
  | String c t =>
      if Py.contains "/" t then basename t
      else if Ascii.eqb c slash then t else s
  end.

Definition absolute (p : string) : bool := String.prefix "/" p.

(** [s] without its final slashes; the root keeps its slash. *)
Fixpoint trim (s : string) : string :=
  match s with
  | EmptyString => EmptyString
  | String c t =>
      match trim t with
      | EmptyString =>
          if Ascii.eqb c slash then EmptyString else String c EmptyString
      | t' => String c t'
      end
  end.

Definition make (s : string) : string :=
  match trim s with
  | EmptyString => if absolute s then "/" else "."
  | p => p
  end.

Definition join (p s : string) : string :=
  if absolute s then make s
  else match trim s with
       | EmptyString => p
       | x => if String.eqb p "/" then "/" +:+ x else p +:+ "/" +:+ x
       end.

Definition is_lower (c : ascii) : bool :=
  let n := nat_of_ascii c in (97 <=? n) && (n <=? 122).

Definition is_upper (c : ascii) : bool :=
  let n := nat_of_ascii c in (65 <=? n) && (n <=? 90).

Definition upper_char (c : ascii) : ascii :=
  if is_lower c then ascii_of_nat (nat_of_ascii c - 32) else c.

Definition lower_char (c : ascii) : ascii :=
  if is_upper c then ascii_of_nat (nat_of_ascii c + 32) else c.

Fixpoint to_upper (s : string) : string :=
  match s with
  | EmptyString => EmptyString
  | String c t => String (upper_char c) (to_upper t)
  end.

(** [title]: a letter that follows a letter is made lower case, any other
    letter upper case. *)
Fixpoint title_go (start : bool) (s : string) : string :=
  match s with
  | EmptyString => EmptyString
  | String c t =>
      String (if start then upper_char c else lower_char c)
        (title_go (negb (is_lower c || is_upper c)) t)
  end.

Definition stat (w : world) (p : string) : result (option node) :=
  match w !! p with
  | Some Denied => Raise (denied p)
  | found => Ok found
  end.

Definition list_dir (w : world) (p : string) : result (list string) :=
  match w !! p with
  | Some Dir =>
      Ok (filter (fun k => k = p +:+ "/" +:+ basename k)
            (map fst (map_to_list w)))
  | Some (File _) => Raise (not_a_directory p)
  | Some Denied => Raise (denied p)
  | None => Raise (missing p)
  end.

Definition load (w : world) (p : string) : result json :=
  match w !! p with
  | Some (File (Some doc)) => Ok doc
  | Some (File None) => Raise no_document
  | Some Dir => Raise (is_a_directory p)
  | Some Denied => Raise (denied p)
  | None => Raise (missing p)
  end.

Definition read_rows (w : world) (p : string) : result csv_rows :=
  match w !! p with
  | Some (File _) => Ok []
  | Some Dir => Raise (is_a_directory p)
  | Some Denied => Raise (denied p)
  | None => Raise (missing p)
  end.

Definition copy_file (src dst : string) (w : world) : world * option exn :=
  match w !! src with
  | Some (File doc) => (<[dst := File doc]> w, None)
  | Some Dir => (w, Some (is_a_directory src))
  | Some Denied => (w, Some (denied src))
  | None => (w, Some (missing src))
  end.

Definition os : Os string world := {|
  Path := make;
  is_absolute := absolute;
  joinpath := join;
  name := basename;
  str := fun p => p;
  path_lt := String.ltb;
  BASE_DIR := "/repo";
  upper := to_upper;
  title := title_go true;
  path_exists := fun w p =>
    found ← stat w p; Ok (bool_decide (is_Some found));
  is_dir := fun w p =>
    found ← stat w p;
    Ok (match found with Some Dir => true | _ => false end);
  iterdir := list_dir;
  glob := fun _ _ _ => Ok [];
  json_load := load;
  csv_read := read_rows;
  mkdir := fun p w => (<[p := Dir]> w, None);
  write_text := fun p _ w => (<[p := File None]> w, None);
  copy := copy_file;
  stdout_write := fun _ w => (w, None)
|}.

Definition two_topics : gmap string json :=
  {[ "00" := JObj {[ "heart" := JFloat "0.9" ]};
     "01" := JObj {[ "valve" := JFloat "0.8" ]} ]}.

Definition relevance_members : gmap string json :=
  {[ "relevance" := JObj two_topics ]}.

Definition relevance_doc : json := JObj relevance_members.

Definition one_topic : gmap string json := {[ "topic_0" := JFloat "0.5" ]}.

Definition gensim_members : gmap string json :=
  {[ "c_v_per_topic" := JObj one_topic ]}.

Definition coherence_members : gmap string json :=
  {[ "gensim" := JObj gensim_members ]}.

Definition coherence_doc : json := JObj coherence_members.

(** Both shapes in one document. *)
Definition both_members : gmap string json :=
  {[ "relevance" := JObj two_topics; "gensim" := JObj gensim_members ]}.

Definition heart : string :=
  "/repo/to_generate_from/heart_failure_with_pagerank_nmtf_bpe_34".
Definition bad : string :=
  "/repo/to_generate_from/bad_with_pagerank_pnmf_bpe_5".
Definition zeta : string :=
  "/repo/to_generate_from/zeta_with_pagerank_pnmf_bpe_10".

(** Three source folders, the second without a data file, and a plain
    file beside them. *)
Definition disk : world :=
  {[ "/repo" := Dir;
     "/repo/to_generate_from" := Dir;
     heart := Dir;
     heart +:+ "/heart_failure_with_pagerank_nmtf_bpe_34_relevance_top_words.json"
       := File (Some relevance_doc);
     bad := Dir;
     "/repo/to_generate_from/notes.txt" := File None;
     zeta := Dir;
     zeta +:+ "/zeta_with_pagerank_pnmf_bpe_10_coherence_scores.json"
       := File (Some coherence_doc);
     zeta +:+ "/zeta_with_pagerank_pnmf_bpe_10_relevance_top_words.json"
       := File (Some relevance_doc) ]}.

Definition start : state string world := State disk [].

(** A document with neither score shape, one whose [relevance] is empty
    beside a usable [gensim], and one whose [gensim] is a number. *)
Definition other_members : gmap string json :=
  {[ "diversity" := JFloat "0.7" ]}.

Definition other_doc : json := JObj other_members.

Definition hollow_members : gmap string json :=
  {[ "relevance" := JObj ∅; "gensim" := JObj gensim_members ]}.

Definition hollow_doc : json := JObj hollow_members.

Definition number_members : gmap string json := {[ "gensim" := JInt 5 ]}.

(** A name of the grammar followed by a line feed. *)
Definition lf_name : string :=
  "a_with_pagerank_nmtf_bpe_3" +:+ String Str.newline "".

Definition void : string :=
  "/repo/to_generate_from/void_with_pagerank_nmtf_bpe_3".
Definition hollow : string :=
  "/repo/to_generate_from/hollow_with_pagerank_pnmf_bpe_4".
Definition study : string := "/repo/to_generate_from/studyXYZ_pnmf_bpe_10".

(** Two folders whose documents give no topic, and one whose name is not
    of the grammar. *)
Definition disk_odd : world :=
  {[ "/repo" := Dir;
     "/repo/to_generate_from" := Dir;
     void := Dir;
     void +:+ "/void_with_pagerank_nmtf_bpe_3_coherence_scores.json"
       := File (Some other_doc);
     hollow := Dir;
     hollow +:+ "/hollow_with_pagerank_pnmf_bpe_4_relevance_top_words.json"
       := File (Some hollow_doc);
     study := Dir;
     study +:+ "/run1_coherence_scores.json" := File (Some coherence_doc) ]}.

Definition start_odd : state string world := State disk_odd [].

(** A source directory with nothing to generate from, and no source
    directory at all. *)
Definition disk_plain : world :=
  {[ "/repo" := Dir;
     "/repo/to_generate_from" := Dir;
     "/repo/to_generate_from/notes.txt" := File None;
     "/repo/to_generate_from/scratch" := Dir ]}.

Definition start_plain : state string world := State disk_plain [].

Definition disk_bare : world := {[ "/repo" := Dir ]}.

Definition start_bare : state string world := State disk_bare [].

(** A folder whose data file is not JSON. *)
Definition torn : string :=
  "/repo/to_generate_from/torn_with_pagerank_nmtf_bpe_7".

Definition disk_torn : world :=
  {[ "/repo" := Dir;
     "/repo/to_generate_from" := Dir;
     torn := Dir;
     torn +:+ "/torn_with_pagerank_nmtf_bpe_7_coherence_scores.json"
       := File None ]}.

Definition start_torn : state string world := State disk_torn [].

(** An entry that may not be examined, which comes before a good folder. *)
Definition alpha : string := "/repo/to_generate_from/alpha".

Definition disk_denied : world :=
  {[ "/repo" := Dir;
     "/repo/to_generate_from" := Dir;
     alpha := Denied;
     heart := Dir;
     heart +:+ "/heart_failure_with_pagerank_nmtf_bpe_34_relevance_top_words.json"
       := File (Some relevance_doc) ]}.

Definition start_denied : state string world := State disk_denied [].

(** The literal of ten to the power [k]: [k + 1] digits. *)
Definition power_of_ten (k : nat) : string := "1" +:+ Py.repeat "0" k.

End Host.


(** * Properties *)

(** ** Strings *)

Module StrFacts.

Lemma str_app_nil_r s : s +:+ "" = s.
Proof.
  induction s as [|c s IH]; [done|].
  unfold String.app in *; simpl. by rewrite IH.
Qed.

Lemma str_app_cons c s t : String c s +:+ t = String c (s +:+ t).
Proof. done. Qed.

Lemma str_app_nil_l s : "" +:+ s = s.
Proof. done. Qed.

Lemma str_app_assoc s t u : (s +:+ t) +:+ u = s +:+ (t +:+ u).
Proof.
  induction s as [|c s IH]; [done|]. rewrite !str_app_cons. by rewrite IH.
Qed.

Lemma str_length_app s t :
  String.length (s +:+ t) = String.length s + String.length t.
Proof.
  induction s as [|c s IH]; [done|]. rewrite str_app_cons. simpl. by rewrite IH.
Qed.

Lemma str_all_app p a b : Str.all p (a +:+ b) = Str.all p a && Str.all p b.
Proof.
  induction a as [|c a IH]; [done|]. rewrite str_app_cons. simpl.
  by rewrite IH, andb_assoc.
Qed.

Lemma substring_app_l w b :
  String.substring 0 (String.length w) (w +:+ b) = w.
Proof.
  induction w as [|c w IH]; simpl.
  - by destruct b.
  - by rewrite IH.
Qed.

Lemma substring_skip a k m x :
  String.substring (String.length a + k) m (a +:+ x)
  = String.substring k m x.
Proof.
  induction a as [|c a IH]; [done|]. rewrite str_app_cons. simpl. apply IH.
Qed.

Lemma prefix_nil t : String.prefix "" t = true.
Proof. by destruct t. Qed.

Lemma chomp_app_newline x : chomp (x +:+ String Str.newline "") = x.
Proof.
  induction x as [|c x IH]; [done|].
  rewrite str_app_cons. destruct x as [|c' x']; [done|].
  rewrite str_app_cons in *. cbn [chomp] in *. by rewrite IH.
Qed.

End StrFacts.

Import StrFacts.

(** ** The matcher finds only matches *)

Lemma run_sound r : forall pos input g k gf,
  Re.run r pos input g k = Some gf ->
  exists w rest g',
    input = w +:+ rest /\ Re.Matches r pos w rest g g' /\
    k (pos + String.length w) rest g' = Some gf.
Proof.
  induction r as [| c | | | | | r1 IH1 r2 IH2 | r1 IH1 r2 IH2 | r IH | i r IH];
    intros pos input g k gf H; simpl in H.
  - exists "", input, g. rewrite Nat.add_0_r. eauto using Re.Matches.
  - destruct input as [|c' t]; [done|]. simpl in H.
    destruct (Ascii.eqb c c') eqn:E; [|done]. apply Ascii.eqb_eq in E as <-.
    exists (String c ""), t, g. simpl. rewrite Nat.add_1_r.
    eauto using Re.Matches.
  - destruct input as [|c' t]; [done|]. simpl in H.
    destruct (Str.is_dot c') eqn:E; [|done].
    exists (String c' ""), t, g. simpl. rewrite Nat.add_1_r.
    eauto using Re.Matches.
  - destruct input as [|c' t]; [done|]. simpl in H.
    destruct (Str.is_digit c') eqn:E; [|done].
    exists (String c' ""), t, g. simpl. rewrite Nat.add_1_r.
    eauto using Re.Matches.
  - destruct (pos =? 0) eqn:E; [|done]. apply Nat.eqb_eq in E as ->.
    exists "", input, g. eauto using Re.Matches.
  - exists "", input, g. rewrite Nat.add_0_r.
    destruct input as [|c [|c' t]]; [eauto using Re.Matches| |done].
    destruct (Ascii.eqb c Str.newline) eqn:E; [|done].
    apply Ascii.eqb_eq in E as ->. eauto using Re.Matches.
  - apply IH1 in H as (w1 & rest1 & g1 & -> & M1 & H).
    apply IH2 in H as (w2 & rest & g2 & -> & M2 & H).
    exists (w1 +:+ w2), rest, g2.
    rewrite str_app_assoc, str_length_app, Nat.add_assoc.
    eauto using Re.Matches.
  - destruct (Re.run r1 pos input g k) eqn:E.
    + simplify_eq. apply IH1 in E as (w & rest & g' & -> & M & H).
      eauto 10 using Re.Matches.
    + apply IH2 in H as (w & rest & g' & -> & M & H).
      eauto 10 using Re.Matches.
  - revert H. generalize (String.length input) as fuel.
    intros fuel; revert pos input g.
    induction fuel as [|fuel IHf]; intros pos input g H; simpl in H.
    + apply IH in H as (w & rest & g' & -> & M & H).
      eauto 10 using Re.Matches.
    + apply IH in H as (w & rest & g' & -> & M & H).
      destruct (pos + String.length w <=? pos);
        [eauto 10 using Re.Matches|].
      match type of H with
      | match ?x with _ => _ end = _ => destruct x eqn:E
      end.
      * simplify_eq. apply IHf in E as (w2 & rest2 & g2 & -> & M2 & H).
        exists (w +:+ w2), rest2, g2.
        rewrite str_app_assoc, str_length_app, Nat.add_assoc.
        eauto using Re.Matches.
      * eauto 10 using Re.Matches.
  - apply IH in H as (w & rest & g' & -> & M & H).
    eauto 10 using Re.Matches.
Qed.

Lemma Matches_Lit w0 : forall pos w rest g g',
  Re.Matches (Re.Lit w0) pos w rest g g' -> w = w0 /\ g' = g.
Proof.
  induction w0 as [|c t IH]; intros pos w rest g g' H; simpl in H.
  - by inversion H.
  - inversion H as [| | | | | |? ? ? w1 w2 ? ? g1 ? M1 M2| | | | |]; subst.
    inversion M1; subst. apply IH in M2 as [-> ->]. done.
Qed.

Lemma Matches_Plus_class (p : ascii -> bool) r :
  (forall pos w rest g g', Re.Matches r pos w rest g g' ->
     g' = g /\ exists c, w = String c "" /\ p c = true) ->
  forall pos w rest g g', Re.Matches (Re.Plus r) pos w rest g g' ->
     g' = g /\ w <> "" /\ Str.all p w = true.
Proof.
  intros Hr pos w rest g g' H. remember (Re.Plus r) as pr eqn:E.
  induction H; try discriminate; simplify_eq.
  - apply Hr in H as (-> & c & -> & Hc). simpl. rewrite Hc. done.
  - apply Hr in H as (-> & c & -> & Hc).
    destruct IHMatches2 as (-> & _ & Hall); [done|].
    rewrite str_app_cons. simpl. rewrite Hc. done.
Qed.

(** Every match of the pattern of [parse_folder_name] splits the name at the
    two markers, and the three groups are the three parts. *)
Lemma pattern_sound s gf :
  Re.rematch pattern s = Some gf ->
  exists d m n tail,
    s = d +:+ "_with_pagerank_" +:+ m +:+ "_bpe_" +:+ n +:+ tail /\
    d <> "" /\ Str.all Str.is_dot d = true /\
    is_method m /\ is_literal n /\
    (tail = "" \/ tail = String Str.newline "") /\
    gf !! 1 = Some (0, String.length d) /\
    gf !! 2 = Some (String.length d + 15, String.length d + 19) /\
    gf !! 3 = Some (String.length d + 24,
                    String.length d + 24 + String.length n).
Proof.
  unfold Re.rematch. intros H.
  apply run_sound in H as (w & rest & g' & -> & M & [= <-]).
  unfold pattern in M.
  inversion M as [| | | | | |? ? ? w0 w1 ? ? g0 ? M0 M1| | | | |];
    subst; clear M.
  inversion M0; subst; clear M0.
  inversion M1 as [| | | | | |? ? ? wd w2 ? ? g1 ? Md M2| | | | |];
    subst; clear M1.
  inversion Md as [| | | | | | | | | | |? ? ? ? ? ? gd Mp]; subst; clear Md.
  apply (Matches_Plus_class Str.is_dot) in Mp as (-> & Hd & Hdot);
    [|intros ????? X; inversion X; subst; eauto].
  inversion M2 as [| | | | | |? ? ? ww w3 ? ? g2 ? Mw M3| | | | |];
    subst; clear M2.
  apply (Matches_Lit "_with_pagerank_") in Mw as [-> ->].
  inversion M3 as [| | | | | |? ? ? wm w4 ? ? g3 ? Mm M4| | | | |];
    subst; clear M3.
  inversion Mm as [| | | | | | | | | | |? ? ? ? ? ? gm Ma]; subst; clear Mm.
  match type of Ma with
  | Re.Matches _ _ _ _ ?g0 _ =>
      assert (is_method wm /\ gm = g0) as [Hm ->]
  end.
  { inversion Ma as [| | | | | | |? ? ? ? ? ? ? X|? ? ? ? ? ? ? X| | |];
      subst.
    - apply (Matches_Lit "nmtf") in X as [-> ->]. split; [by left|done].
    - apply (Matches_Lit "pnmf") in X as [-> ->]. split; [by right|done]. }
  clear Ma.
  inversion M4 as [| | | | | |? ? ? wb w5 ? ? g4 ? Mb M5| | | | |];
    subst; clear M4.
  apply (Matches_Lit "_bpe_") in Mb as [-> ->].
  inversion M5 as [| | | | | |? ? ? wn w6 ? ? g5 ? Mn M6| | | | |];
    subst; clear M5.
  inversion Mn as [| | | | | | | | | | |? ? ? ? ? ? gn Mq]; subst; clear Mn.
  apply (Matches_Plus_class Str.is_digit) in Mq as (-> & Hn & Hdig);
    [|intros ????? X; inversion X; subst; eauto].
  inversion M6 as [| | | | |? ? ? He| | | | | |]; subst; clear M6.
  exists wd, wm, wn, rest.
  assert (String.length wm = 4) as Lm by (by destruct Hm as [-> | ->]).
  simpl. rewrite Lm. split_and!; try done.
  - rewrite str_app_nil_l, !str_app_assoc. done.
  - rewrite lookup_insert_ne by lia. rewrite lookup_insert_eq.
    do 2 f_equal; lia.
  - rewrite lookup_insert_eq. do 2 f_equal; lia.
Qed.

(** ** [int] on words of digits *)

Lemma int_small w :
  String.length w <= 4300 -> Py.int w = Ok (int_of_digits w).
Proof.
  intros H. unfold Py.int, Py.max_str_digits.
  by destruct (Nat.ltb_spec 4300 (String.length w)); [lia|].
Qed.

Lemma int_large w :
  4300 < String.length w -> exists text, Py.int w = Raise (ValueError text).
Proof.
  intros H. unfold Py.int, Py.max_str_digits.
  destruct (Nat.ltb_spec 4300 (String.length w)); [by eexists|lia].
Qed.

Lemma int_Ok w k :
  Py.int w = Ok k -> String.length w <= 4300 /\ k = int_of_digits w.
Proof.
  unfold Py.int, Py.max_str_digits.
  destruct (Nat.ltb_spec 4300 (String.length w)); [done|].
  intros [= <-]. split; [lia|done].
Qed.

(** ** What [parse_folder_name] does with a match *)

Lemma parse_folder_name_nomatch s :
  Re.rematch pattern s = None -> parse_folder_name s = Ok None.
Proof. unfold parse_folder_name. by intros ->. Qed.

(** The three groups of a match are the three parts of the name, and the
    third goes to [int]. *)
Lemma parse_folder_name_of_match s gf :
  Re.rematch pattern s = Some gf ->
  exists d m n tail,
    s = d +:+ "_with_pagerank_" +:+ m +:+ "_bpe_" +:+ n +:+ tail /\
    d <> "" /\ Str.all Str.is_dot d = true /\
    is_method m /\ is_literal n /\
    (tail = "" \/ tail = String Str.newline "") /\
    parse_folder_name s
    = (topic_count ← Py.int n; Ok (Some (Metadata d m topic_count))).
Proof.
  intros E. unfold parse_folder_name. rewrite E.
  apply pattern_sound in E
    as (d & m & n & tail & -> & Hd & Hdot & Hm & Hn & Ht & G1 & G2 & G3).
  exists d, m, n, tail. split_and!; try done.
  unfold Re.group. rewrite G1, G2, G3.
  replace (String.length d - 0) with (String.length d) by lia.
  replace (String.length d + 19 - (String.length d + 15))
    with (String.length m) by (destruct Hm as [-> | ->]; simpl; lia).
  replace (String.length d + 24 + String.length n - (String.length d + 24))
    with (String.length n) by lia.
  rewrite substring_app_l.
  replace (String.length d + 15)
    with (String.length d + (String.length "_with_pagerank_" + 0))
    by (simpl; lia).
  rewrite (substring_skip d), (substring_skip "_with_pagerank_"),
    substring_app_l.
  replace (String.length d + 24)
    with (String.length d + (String.length "_with_pagerank_" +
            (String.length m + (String.length "_bpe_" + 0))))
    by (destruct Hm as [-> | ->]; simpl; lia).
  rewrite (substring_skip d), (substring_skip "_with_pagerank_"),
    (substring_skip m), (substring_skip "_bpe_"), substring_app_l.
  done.
Qed.

(** What a successful parse says about the folder name. *)
Lemma parse_folder_name_sound s md :
  parse_folder_name s = Ok (Some md) ->
  exists d m n tail,
    s = d +:+ "_with_pagerank_" +:+ m +:+ "_bpe_" +:+ n +:+ tail /\
    d <> "" /\ Str.all Str.is_dot d = true /\
    is_method m /\ is_literal n /\
    (tail = "" \/ tail = String Str.newline "") /\
    String.length n <= 4300 /\
    md = Metadata d m (int_of_digits n).
Proof.
  intros H.
  destruct (Re.rematch pattern s) as [gf|] eqn:E;
    [|by rewrite (parse_folder_name_nomatch s E) in H].
  apply parse_folder_name_of_match in E
    as (d & m & n & tail & -> & Hd & Hdot & Hm & Hn & Ht & E).
  rewrite E in H. exists d, m, n, tail. split_and!; try done.
  - destruct (Py.int n) as [k|e] eqn:Ek; [|done].
    by apply int_Ok in Ek as [? _].
  - destruct (Py.int n) as [k|e] eqn:Ek; [|done].
    apply int_Ok in Ek as [_ ->]. cbn in H. by simplify_eq.
Qed.

(** ** The matcher finds a match when there is one *)

Lemma plus_loop_unfold body k fuel pos rest g :
  Re.plus_loop body k fuel pos rest g =
  body pos rest g (fun pos' rest' g' =>
    match fuel with
    | 0 => k pos' rest' g'
    | S fuel' =>
        if pos' <=? pos then k pos' rest' g'
        else match Re.plus_loop body k fuel' pos' rest' g' with
             | Some m => Some m
             | None => k pos' rest' g'
             end
    end).
Proof. by destruct fuel. Qed.

(** A greedy [+] over a class of characters matches a word of the class
    whenever the rest of the pattern accepts what follows the word. *)
Lemma plus_loop_class p k w : forall fuel pos rest g,
  w <> "" -> Str.all p w = true -> String.length w <= S fuel ->
  is_Some (k (pos + String.length w) rest g) ->
  is_Some (Re.plus_loop (Re.one p) k fuel pos (w +:+ rest) g).
Proof.
  induction w as [|c w IH]; intros fuel pos rest g Hw Hp Hf Hk;
    [by destruct Hw|].
  simpl in Hp. apply andb_true_iff in Hp as [Hc Hp].
  rewrite plus_loop_unfold, str_app_cons. unfold Re.one at 1. rewrite Hc.
  assert ((S pos <=? pos) = false) as -> by (apply Nat.leb_gt; lia).
  destruct w as [|c' w'].
  - rewrite str_app_nil_l. simpl in Hk. rewrite Nat.add_1_r in Hk.
    destruct fuel; [done|].
    destruct (Re.plus_loop _ _ _ _ _ _); [by eexists|done].
  - destruct fuel as [|fuel]; [simpl in Hf; lia|].
    destruct (IH fuel (S pos) rest g) as [x ->]; try done.
    + simpl in *. lia.
    + replace (S pos + String.length (String c' w'))
        with (pos + String.length (String c (String c' w')))
        by (simpl; lia).
      done.
Qed.

Lemma run_Lit_app w0 : forall pos rest g k,
  Re.run (Re.Lit w0) pos (w0 +:+ rest) g k
  = k (pos + String.length w0) rest g.
Proof.
  induction w0 as [|c t IH]; intros pos rest g k; simpl.
  - by rewrite Nat.add_0_r.
  - rewrite Ascii.eqb_refl, IH. by rewrite Nat.add_succ_comm.
Qed.

Lemma pattern_complete d m n tail :
  d <> "" -> Str.all Str.is_dot d = true -> is_method m -> is_literal n ->
  tail = "" \/ tail = String Str.newline "" ->
  is_Some (Re.rematch pattern (folder_name_of d m n +:+ tail)).
Proof.
  intros Hd Hdot Hm [Hn Hdig] Ht. unfold Re.rematch, pattern, folder_name_of.
  rewrite !str_app_assoc.
  cbn [Re.run Nat.eqb].
  apply plus_loop_class; try done.
  { rewrite str_length_app. lia. }
  rewrite run_Lit_app.
  cbn [Re.run].
  assert (forall pos rest g k,
    is_Some (k (pos + 4) rest g) ->
    is_Some (match Re.run (Re.Lit "nmtf") pos (m +:+ rest) g k with
             | Some x => Some x
             | None => Re.run (Re.Lit "pnmf") pos (m +:+ rest) g k
             end)) as Halt.
  { intros pos rest g k Hk. destruct Hm as [-> | ->].
    - rewrite run_Lit_app. change (String.length "nmtf") with 4.
      by destruct Hk as [x ->].
    - rewrite (run_Lit_app "pnmf"). change (String.length "pnmf") with 4.
      replace (Re.run (Re.Lit "nmtf") pos ("pnmf" +:+ rest) g k)
        with (@None Re.spans) by done.
      done. }
  apply Halt. rewrite run_Lit_app. cbn [Re.run].
  apply plus_loop_class; try done.
  { rewrite str_length_app. lia. }
  by destruct Ht as [-> | ->].
Qed.

(** ** A name splits at the markers in one way only *)

Ltac peel H Hq e :=
  destruct e as [|? e];
  [ rewrite ?str_app_nil_l, ?str_app_cons in H;
    first [ discriminate H
          | injection H as H; rewrite H in Hq; simpl in Hq; discriminate Hq ]
  | rewrite str_app_cons in H; injection H as _ H ].

Lemma marker_at_front m nt e R :
  is_method m ->
  Str.all is_tail nt = true ->
  "_with_pagerank_" +:+ m +:+ "_bpe_" +:+ nt = e +:+ "_with_pagerank_" +:+ R ->
  e = "".
Proof.
  intros Hm Hq H.
  destruct e as [|c0 e]; [done|exfalso].
  destruct Hm as [-> | ->]; rewrite !str_app_cons, !str_app_nil_l in H;
    injection H as _ H; do 23 (peel H Hq e);
    rewrite H, str_all_app in Hq; simpl in Hq;
    by rewrite andb_false_r in Hq.
Qed.

Lemma decomposition_unique d : forall d' m n t m' n' t',
  is_method m -> is_method m' ->
  Str.all is_tail (n +:+ t) = true -> Str.all is_tail (n' +:+ t') = true ->
  d +:+ "_with_pagerank_" +:+ m +:+ "_bpe_" +:+ n +:+ t =
  d' +:+ "_with_pagerank_" +:+ m' +:+ "_bpe_" +:+ n' +:+ t' ->
  d = d' /\ m = m' /\ n +:+ t = n' +:+ t'.
Proof.
  induction d as [|c d IH]; intros d' m n t m' n' t' Hm Hm' Hq Hq' H.
  - rewrite str_app_nil_l in H.
    assert (d' = "") as -> by (eapply marker_at_front, H; done).
    rewrite str_app_nil_l in H. split; [done|].
    apply (inj (String.app "_with_pagerank_")) in H.
    destruct Hm as [-> | ->], Hm' as [-> | ->];
      rewrite !str_app_cons, !str_app_nil_l in H; simplify_eq; done.
  - destruct d' as [|c' d'].
    + symmetry in H. rewrite str_app_nil_l in H.
      apply marker_at_front in H; done.
    + rewrite !str_app_cons in H. injection H as -> H.
      apply IH in H as (-> & -> & ->); done.
Qed.

Lemma digits_tail n :
  Str.all Str.is_digit n = true -> Str.all is_tail n = true.
Proof.
  induction n as [|c n IH]; [done|]. simpl. intros [Hc Hn]%andb_true_iff.
  unfold is_tail at 1. by rewrite Hc, IH.
Qed.

Lemma tail_tail n t :
  Str.all Str.is_digit n = true -> t = "" \/ t = String Str.newline "" ->
  Str.all is_tail (n +:+ t) = true.
Proof.
  intros Hn Ht. rewrite str_all_app, digits_tail by done.
  by destruct Ht as [-> | ->].
Qed.

(** ** [parse_folder_name] on the names of the grammar *)

Lemma str_app_cancel_r a : forall b t, a +:+ t = b +:+ t -> a = b.
Proof.
  induction a as [|c a IH]; intros [|c' b] t H.
  - done.
  - apply (f_equal String.length) in H.
    rewrite str_app_nil_l, str_app_cons in H. simpl in H.
    rewrite str_length_app in H. lia.
  - apply (f_equal String.length) in H.
    rewrite str_app_nil_l, str_app_cons in H. simpl in H.
    rewrite str_length_app in H. lia.
  - rewrite !str_app_cons in H. injection H as -> H. f_equal. by eapply IH.
Qed.

(** A name of the grammar, followed by a line feed or not, is matched, and
    its three parts are found as they are. *)
Lemma parse_folder_name_parts d m n tail :
  d <> "" -> Str.all Str.is_dot d = true -> is_method m -> is_literal n ->
  tail = "" \/ tail = String Str.newline "" ->
  is_Some (Re.rematch pattern (folder_name_of d m n +:+ tail)) ->
  parse_folder_name (folder_name_of d m n +:+ tail)
  = (topic_count ← Py.int n; Ok (Some (Metadata d m topic_count))).
Proof.
  intros Hd Hdot Hm [Hn Hdig] Ht [gf E].
  apply parse_folder_name_of_match in E
    as (d' & m' & n' & t' & Heq & _ & _ & Hm' & [Hn' Hdig'] & Ht' & ->).
  unfold folder_name_of in Heq. rewrite !str_app_assoc in Heq.
  apply decomposition_unique in Heq as (-> & -> & Heq);
    try done; try by apply tail_tail.
  assert (n = n') as ->; [|done].
  clear - Heq Ht Ht' Hdig Hdig' Hn Hn'.
  assert (forall a b, Str.all Str.is_digit a = true ->
            Str.all Str.is_digit b = true ->
            a = b +:+ String Str.newline "" -> False) as Hno.
  { intros a b Ha _ ->. rewrite str_all_app in Ha.
    by apply andb_true_iff in Ha as [_ Ha]. }
  destruct Ht as [-> | ->], Ht' as [-> | ->];
    rewrite ?str_app_nil_r in Heq.
  - done.
  - exfalso. by eapply (Hno n n').
  - exfalso. symmetry in Heq. by eapply (Hno n' n).
  - by apply str_app_cancel_r in Heq.
Qed.

Lemma parse_folder_name_complete d m n :
  d <> "" -> Str.all Str.is_dot d = true -> is_method m -> is_literal n ->
  parse_folder_name (folder_name_of d m n)
  = (topic_count ← Py.int n; Ok (Some (Metadata d m topic_count))).
Proof.
  intros Hd Hdot Hm Hl.
  rewrite <- (str_app_nil_r (folder_name_of d m n)).
  apply parse_folder_name_parts; auto. apply pattern_complete; auto.
Qed.

(** A match has an underscore in it. *)
Lemma matched_has_underscore s gf :
  Re.rematch pattern s = Some gf ->
  Str.all no_underscore s = false.
Proof.
  intros E.
  apply pattern_sound in E as (d & m & n & tail & -> & _).
  rewrite str_all_app, str_app_cons. simpl. apply andb_false_r.
Qed.

(** ** [int] undoes [str] *)

Lemma int_of_digits_from_uint d : forall acc,
  int_of_digits_from acc (NilEmpty.string_of_uint d) = Nat.of_uint_acc d acc.
Proof.
  induction d as [|d IH|d IH|d IH|d IH|d IH|d IH|d IH|d IH|d IH|d IH];
    intros acc; cbn [NilEmpty.string_of_uint int_of_digits_from Nat.of_uint_acc];
    [done|..]; rewrite IH, Nat.tail_mul_spec; f_equal;
    match goal with
    | |- context [nat_of_ascii ?c - 48] =>
        let v := eval vm_compute in (nat_of_ascii c - 48) in
        change (nat_of_ascii c - 48) with v
    end; lia.
Qed.

Lemma digits_of_uint d :
  Str.all Str.is_digit (NilEmpty.string_of_uint d) = true.
Proof. induction d; cbn; done. Qed.

Lemma int_of_digits_str_of_nat k : int_of_digits (Py.str_of_nat k) = k.
Proof.
  unfold int_of_digits, Py.str_of_nat, NilZero.string_of_uint.
  pose proof (DecimalNat.Unsigned.of_to k) as H. unfold Nat.of_uint in H.
  destruct (Nat.to_uint k) eqn:E; [by rewrite <- H|..];
    by rewrite int_of_digits_from_uint.
Qed.

Lemma str_of_nat_literal k : is_literal (Py.str_of_nat k).
Proof.
  unfold Py.str_of_nat, NilZero.string_of_uint.
  destruct (Nat.to_uint k) eqn:E; [done|..];
    (split; [done | apply digits_of_uint]).
Qed.

(** The topic count in a name is read back as written. *)
Lemma parse_folder_name_count d m k :
  d <> "" -> Str.all Str.is_dot d = true -> is_method m ->
  String.length (Py.str_of_nat k) <= 4300 ->
  parse_folder_name (folder_name_of d m (Py.str_of_nat k))
  = Ok (Some (Metadata d m k)).
Proof.
  intros Hd Hdot Hm Hk.
  rewrite parse_folder_name_complete by auto using str_of_nat_literal.
  by rewrite int_small, int_of_digits_str_of_nat.
Qed.

Lemma prefix_app a x : String.prefix a (a +:+ x) = true.
Proof.
  induction a as [|c a IH]; [apply prefix_nil|].
  rewrite str_app_cons. cbn [String.prefix]. by destruct (ascii_dec c c).
Qed.

Lemma grammar_tail_of m n :
  is_method m -> is_literal n ->
  grammar_tail ("_with_pagerank_" +:+ m +:+ "_bpe_" +:+ n) = true.
Proof.
  intros Hm [Hn Hdig]. unfold grammar_tail.
  rewrite prefix_app. cbn [andb].
  destruct Hm as [-> | ->]; rewrite !str_app_cons, !str_app_nil_l; cbn;
    rewrite prefix_nil, Hdig; by destruct n.
Qed.

Lemma matches_grammar_of d m n :
  is_method m -> is_literal n -> matches_grammar (folder_name_of d m n) = true.
Proof.
  intros Hm Hl. unfold folder_name_of. induction d as [|c d IH].
  - rewrite str_app_nil_l. pose proof (grammar_tail_of m n Hm Hl) as H.
    rewrite str_app_cons in *. cbn [matches_grammar]. by rewrite H.
  - rewrite str_app_cons. cbn [matches_grammar]. rewrite IH. apply orb_true_r.
Qed.

Lemma prefix_drop a : forall s,
  String.prefix a s = true -> s = a +:+ Str.drop (String.length a) s.
Proof.
  induction a as [|c a IH]; intros s H; [done|].
  destruct s as [|c' s]; [done|]. cbn [String.prefix] in H.
  destruct (ascii_dec c c') as [<- |]; [|done].
  rewrite str_app_cons. cbn. by rewrite <- IH.
Qed.

Lemma grammar_tail_inv rest :
  grammar_tail rest = true ->
  exists m n,
    rest = "_with_pagerank_" +:+ m +:+ "_bpe_" +:+ n /\
    is_method m /\ is_literal n.
Proof.
  unfold grammar_tail. intros H.
  apply andb_true_iff in H as [Hw H].
  apply andb_true_iff in H as [H Hn].
  apply andb_true_iff in H as [Hm Hb].
  apply andb_true_iff in Hn as [Hne Hdig].
  apply prefix_drop in Hw. apply prefix_drop in Hb.
  change (String.length "_with_pagerank_") with 15 in Hw.
  change (String.length "_bpe_") with 5 in Hb.
  set (r := Str.drop 15 rest) in *.
  assert (exists m, is_method m /\ r = m +:+ Str.drop 4 r) as (m & Hm' & Hr).
  { apply orb_true_iff in Hm as [Hm | Hm]; apply prefix_drop in Hm.
    - exists "nmtf". split; [by left|done].
    - exists "pnmf". split; [by right|done]. }
  assert (Str.drop 9 r = Str.drop 5 (Str.drop 4 r)) as Hd.
  { rewrite Hr at 1. by destruct Hm' as [-> | ->]. }
  exists m, (Str.drop 9 r). split_and!; try done.
  - rewrite Hw. f_equal. rewrite Hr at 1. f_equal. by rewrite Hd.
  - split; [|done]. intros E. by rewrite E in Hne.
Qed.

(** [matches_grammar] decides the grammar. *)
Lemma matches_grammar_spec s : matches_grammar s = true <-> in_grammar s.
Proof.
  split.
  - induction s as [|c s IH]; cbn [matches_grammar].
    + rewrite orb_false_r. intros (m & n & -> & Hm & Hl)%grammar_tail_inv.
      by exists "", m, n.
    + intros [H | H]%orb_true_iff.
      * apply grammar_tail_inv in H as (m & n & -> & Hm & Hl).
        by exists "", m, n.
      * apply IH in H as (d & m & n & -> & Hm & Hl).
        by exists (String c d), m, n.
  - intros (d & m & n & -> & Hm & Hl). by apply matches_grammar_of.
Qed.

Lemma parse_folder_name_none s :
  matches_grammar s = false -> matches_grammar (chomp s) = false ->
  parse_folder_name s = Ok None.
Proof.
  intros Hs Hc.
  destruct (Re.rematch pattern s) as [gf|] eqn:E;
    [exfalso|by apply parse_folder_name_nomatch].
  apply parse_folder_name_of_match in E
    as (d & m & n & t & -> & _ & _ & Hm & Hl & [-> | ->] & _).
  - rewrite str_app_nil_r in Hs.
    pose proof (matches_grammar_of d m n Hm Hl) as G.
    unfold folder_name_of in G. congruence.
  - replace (d +:+ "_with_pagerank_" +:+ m +:+ "_bpe_" +:+ n
             +:+ String Str.newline "")
      with (folder_name_of d m n +:+ String Str.newline "") in Hc
      by (unfold folder_name_of; by rewrite !str_app_assoc).
    rewrite chomp_app_newline in Hc.
    by rewrite (matches_grammar_of d m n) in Hc.
Qed.

(** ** [get_topic_count] on documents *)

Lemma in_obj key (doc : gmap string json) :
  Py.in_ key (JObj doc) = Ok (bool_decide (is_Some (doc !! key))).
Proof. done. Qed.

Lemma get_topic_count_len (doc : gmap string json) v :
  doc !! "relevance" = Some v ->
  get_topic_count (JObj doc) = Py.len v.
Proof.
  intros H. unfold get_topic_count. rewrite (in_obj "relevance"), H. cbn.
  by rewrite H.
Qed.

Lemma get_topic_count_c_v (doc gensim cv : gmap string json) :
  doc !! "relevance" = None ->
  doc !! "gensim" = Some (JObj gensim) ->
  gensim !! "c_v_per_topic" = Some (JObj cv) ->
  get_topic_count (JObj doc) = Ok (size cv).
Proof.
  intros Hr Hg Hc. unfold get_topic_count.
  rewrite !(in_obj _ doc), Hr, Hg. cbn. rewrite Hg. cbn. by rewrite Hc.
Qed.

Lemma get_topic_count_neither (doc : gmap string json) :
  doc !! "relevance" = None ->
  (doc !! "gensim" = None \/
   exists gensim, doc !! "gensim" = Some (JObj gensim) /\
                  gensim !! "c_v_per_topic" = None) ->
  get_topic_count (JObj doc) = Ok 0.
Proof.
  intros Hr Hg. unfold get_topic_count. rewrite !(in_obj _ doc), Hr. cbn.
  destruct Hg as [Hg | (g & Hg & Hc)]; rewrite Hg; cbn; [done|].
  by rewrite Hc.
Qed.

(** ** [str.replace] of one character by another *)

Lemma replace_go_underscore s : forall fuel,
  String.length s <= fuel -> Py.replace_go fuel "_" "-" s = dashed s.
Proof.
  induction s as [|c t IH]; intros fuel Hf; [by destruct fuel|].
  destruct fuel as [|fuel]; [simpl in Hf; lia|].
  cbn [Py.replace_go dashed String.prefix].
  destruct (ascii_dec "_" c) as [<- | Hne].
  - rewrite prefix_nil. cbn. rewrite IH by (simpl in Hf; lia). done.
  - assert (Ascii.eqb c Str.underscore = false) as ->.
    { apply Ascii.eqb_neq. by intros ->. }
    rewrite IH by (simpl in Hf; lia). done.
Qed.

Lemma dashed_length s : String.length (dashed s) = String.length s.
Proof. induction s as [|c t IH]; [done|]. simpl. by rewrite IH. Qed.

Lemma dashed_no_underscore s :
  Str.all (fun c => negb (Ascii.eqb c Str.underscore)) (dashed s) = true.
Proof.
  induction s as [|c t IH]; [done|]. simpl. rewrite IH, andb_true_r.
  by destruct (Ascii.eqb c Str.underscore) eqn:E; [|rewrite E].
Qed.

(** ** [sorted] *)

Lemma insert_perm {A} (lt : A -> A -> bool) x l : Py.insert lt x l ≡ₚ x :: l.
Proof.
  induction l as [|y t IH]; [done|]. simpl.
  destruct (lt y x); [|done]. rewrite IH. apply Permutation_swap.
Qed.

Lemma sorted_perm {A} (lt : A -> A -> bool) l : Py.sorted lt l ≡ₚ l.
Proof.
  induction l as [|x t IH]; [done|]. simpl.
  by rewrite insert_perm, IH.
Qed.

Lemma insert_sorted {A} (lt : A -> A -> bool) x l :
  (forall a b, lt a b = true -> lt b a = false) ->
  Sorted (fun a b => lt b a = false) l ->
  Sorted (fun a b => lt b a = false) (Py.insert lt x l).
Proof.
  intros Hasym. induction 1 as [|y t Hs IH Hd]; simpl.
  - by repeat constructor.
  - destruct (lt y x) eqn:E.
    + constructor; [done|].
      destruct Hd as [|z t' Hz]; simpl.
      * constructor. by apply Hasym.
      * destruct (lt z x); constructor; [done|by apply Hasym].
    + by repeat constructor.
Qed.

Lemma sorted_sorted {A} (lt : A -> A -> bool) l :
  (forall a b, lt a b = true -> lt b a = false) ->
  Sorted (fun a b => lt b a = false) (Py.sorted lt l).
Proof.
  intros Hasym. induction l as [|x t IH]; simpl; [constructor|].
  by apply insert_sorted.
Qed.

(** ** [generate_app] and [generate_all_apps] *)

Section Facts.

Context {path world : Type} (os : Os path world).

Lemma bind_eq {A B} (m : M path world A) (f : A -> M path world B) s :
  (m ≫= f) s =
  match m s with
  | (s', Ok a) => f a s'
  | (s', Raise e) => (s', Raise e)
  end.
Proof. done. Qed.

Lemma do_exists_eq p s :
  do_exists os p s = (s, path_exists os (fs s) p).
Proof. done. Qed.

(** [find_data_file] asks for the first file, and for the second only when
    the first is not there; what [exists] raises leaves it. *)
Lemma find_data_file_cases sp pre s :
  find_data_file os sp pre s =
  (s, match path_exists os (fs s)
              (joinpath os sp (pre +:+ "_coherence_scores.json")) with
      | Raise e => Raise e
      | Ok true => Ok (Some (joinpath os sp (pre +:+ "_coherence_scores.json")))
      | Ok false =>
          match path_exists os (fs s)
                  (joinpath os sp (pre +:+ "_relevance_top_words.json")) with
          | Raise e => Raise e
          | Ok true =>
              Ok (Some (joinpath os sp (pre +:+ "_relevance_top_words.json")))
          | Ok false => Ok None
          end
      end).
Proof.
  unfold find_data_file. rewrite bind_eq, do_exists_eq.
  destruct (path_exists os (fs s) _) as [[|]|e]; [done| |done].
  rewrite bind_eq, do_exists_eq.
  by destruct (path_exists os (fs s) _) as [[|]|e].
Qed.

Lemma find_data_file_state sp pre s : (find_data_file os sp pre s).1 = s.
Proof. by rewrite find_data_file_cases. Qed.

Lemma find_data_file_run sp pre s r :
  (find_data_file os sp pre s).2 = r -> find_data_file os sp pre s = (s, r).
Proof.
  intros <-. pose proof (find_data_file_state sp pre s) as H.
  by destruct (find_data_file os sp pre s) as [s' r]; simplify_eq/=.
Qed.

(** The first half of [generate_app] only looks: it leaves the state as
    it found it. *)
Lemma generate_app_metadata_state sf p m d s :
  (generate_app_metadata os sf p m d s).1 = s.
Proof.
  unfold generate_app_metadata. rewrite bind_eq, do_exists_eq.
  destruct (path_exists os (fs s) _) as [[|]|e]; [|done..]. cbn.
  rewrite bind_eq. unfold lift at 1.
  destruct (initial_metadata _ p m d) as [[md pre]|e]; [|done].
  rewrite bind_eq.
  pose proof (find_data_file_state (under_base os sf) pre s) as Hs.
  destruct (find_data_file os (under_base os sf) pre s) as [s1 [[f|]|e]];
    cbn in Hs; subst s1; [|done..].
  rewrite bind_eq. unfold load_topic_data, look_r at 1.
  destruct (json_load os (fs s) f) as [data|e]; [|done].
  rewrite bind_eq. unfold lift at 1.
  destruct (get_topic_count data) as [n|e]; [|done].
  by destruct (n =? 0).
Qed.

Lemma generate_app_metadata_run sf p m d s md pre f data n :
  path_exists os (fs s) (under_base os sf) = Ok true ->
  initial_metadata (name os (under_base os sf)) p m d = Ok (md, pre) ->
  find_data_file os (under_base os sf) pre s = (s, Ok (Some f)) ->
  json_load os (fs s) f = Ok data ->
  get_topic_count data = Ok n ->
  generate_app_metadata os sf p m d s =
  (s, if n =? 0
      then Raise (ValueError "Could not determine topic count from data")
      else Ok (Prepared (under_base os sf) pre f (set_topic_count md n) n)).
Proof.
  intros He Hi Hf Hl Hc.
  unfold generate_app_metadata. rewrite bind_eq, do_exists_eq, He. cbn.
  rewrite bind_eq. unfold lift at 1. rewrite Hi.
  rewrite bind_eq, Hf. rewrite bind_eq. unfold load_topic_data, look_r at 1.
  rewrite Hl. rewrite bind_eq. unfold lift at 1. rewrite Hc.
  by destruct (n =? 0).
Qed.

Lemma generate_app_zero_count sf od p m d s md pre f data :
  path_exists os (fs s) (under_base os sf) = Ok true ->
  initial_metadata (name os (under_base os sf)) p m d = Ok (md, pre) ->
  find_data_file os (under_base os sf) pre s = (s, Ok (Some f)) ->
  json_load os (fs s) f = Ok data ->
  get_topic_count data = Ok 0 ->
  generate_app os sf od p m d s =
  (s, Raise (ValueError "Could not determine topic count from data")).
Proof.
  intros He Hi Hf Hl Hc. unfold generate_app.
  rewrite bind_eq, (generate_app_metadata_run _ _ _ _ _ _ _ _ _ 0) by done.
  done.
Qed.

Lemma generate_app_fails_early sf od p m d s e :
  (generate_app_metadata os sf p m d s).2 = Raise e ->
  generate_app os sf od p m d s = (s, Raise e).
Proof.
  intros H. unfold generate_app. rewrite bind_eq.
  pose proof (generate_app_metadata_state sf p m d s) as Hs.
  destruct (generate_app_metadata os sf p m d s) as [s1 r].
  simpl in *. by subst.
Qed.

(** The prefix of the data files: the [prefix] argument when [prefix],
    [method] and [dataset] are all given, the folder name otherwise. *)
Lemma initial_metadata_prefix folder_name p m d md pre :
  initial_metadata folder_name p m d = Ok (md, pre) ->
  pre = if Py.truthy p && Py.truthy m && Py.truthy d
        then default "" p else folder_name.
Proof.
  unfold initial_metadata.
  destruct (Py.truthy p && Py.truthy m && Py.truthy d); [by intros [= _ <-]|].
  destruct (parse_folder_name folder_name) as [[md'|]|e]; cbn; [|done..].
  by intros [= _ <-].
Qed.

Lemma generate_app_no_data_file sf od p m d s :
  let sp := under_base os sf in
  let pre := if Py.truthy p && Py.truthy m && Py.truthy d
             then default "" p else name os sp in
  path_exists os (fs s)
    (joinpath os sp (pre +:+ "_coherence_scores.json")) = Ok false ->
  path_exists os (fs s)
    (joinpath os sp (pre +:+ "_relevance_top_words.json")) = Ok false ->
  exists e, generate_app os sf od p m d s = (s, Raise e) /\
    (path_exists os (fs s) sp = Ok true ->
     (exists md pre', initial_metadata (name os sp) p m d = Ok (md, pre')) ->
     e = FileNotFoundError ("No data file found in " +:+ str os sp)).
Proof.
  intros sp pre H1 H2.
  assert (exists e, (generate_app_metadata os sf p m d s).2 = Raise e /\
    (path_exists os (fs s) sp = Ok true ->
     (exists md pre', initial_metadata (name os sp) p m d = Ok (md, pre')) ->
     e = FileNotFoundError ("No data file found in " +:+ str os sp)))
    as (e & He & Hi).
  { unfold generate_app_metadata. rewrite bind_eq, do_exists_eq. fold sp.
    destruct (path_exists os (fs s) sp) as [[|]|e0]; cbn;
      [|by eexists..].
    rewrite bind_eq. unfold lift at 1.
    destruct (initial_metadata (name os sp) p m d) as [[md pre']|e0] eqn:Hi;
      [|eexists; split; [done|]; by intros _ (? & ? & ?)].
    apply initial_metadata_prefix in Hi. fold pre in Hi. subst pre'.
    rewrite bind_eq, find_data_file_cases, H1, H2. by eexists. }
  exists e. split; [|done]. by apply generate_app_fails_early.
Qed.

Lemma generate_app_bad_name sf od p m d s :
  Py.truthy p && Py.truthy m && Py.truthy d = false ->
  parse_folder_name (name os (under_base os sf)) = Ok None ->
  exists e, generate_app os sf od p m d s = (s, Raise e) /\
    (path_exists os (fs s) (under_base os sf) = Ok true ->
     e = ValueError ("Invalid folder name format: "
                     +:+ name os (under_base os sf))).
Proof.
  intros Hm Hp.
  assert (exists e, (generate_app_metadata os sf p m d s).2 = Raise e /\
    (path_exists os (fs s) (under_base os sf) = Ok true ->
     e = ValueError ("Invalid folder name format: "
                     +:+ name os (under_base os sf)))) as (e & He & Hi).
  { unfold generate_app_metadata. rewrite bind_eq, do_exists_eq.
    destruct (path_exists os (fs s) (under_base os sf)) as [[|]|e0]; cbn;
      [|by eexists..].
    rewrite bind_eq. unfold lift at 1, initial_metadata. rewrite Hm, Hp.
    by eexists. }
  exists e. split; [|done]. by apply generate_app_fails_early.
Qed.

(** What the loop asks about an entry, in the terms of [wanted]. *)
Lemma all_apps_loop_step f rest generated s :
  all_apps_loop os (f :: rest) generated s =
  match wanted os s f with
  | Raise e => (s, Raise e)
  | Ok false => all_apps_loop os rest generated s
  | Ok true =>
      match generate_app os (str os f) None None None None s with
      | (s1, Ok output) => all_apps_loop os rest (generated ++ [output]) s1
      | (s1, Raise e) =>
          match print os (report os f e) s1 with
          | (s2, Ok _) => all_apps_loop os rest generated s2
          | (s2, Raise e') => (s2, Raise e')
          end
      end
  end.
Proof.
  cbn [all_apps_loop]. unfold wanted. rewrite bind_eq. unfold look_r at 1.
  destruct (is_dir os (fs s) f) as [[|]|e]; cbn; [|done..].
  rewrite bind_eq. unfold lift at 1.
  destruct (parse_folder_name (name os f)) as [[md|]|e]; cbn; [|done..].
  rewrite bind_eq. unfold try_except at 1. rewrite bind_eq.
  destruct (generate_app os (str os f) None None None None s)
    as [s1 [output|e]]; [done|].
  rewrite bind_eq. fold (report os f e).
  by destruct (print os (report os f e) s1) as [s2 [[]|e']].
Qed.

Lemma all_apps_loop_processed folders : forall generated s,
  exists atts s' stop,
    all_apps_loop os folders generated s
      = (s', match stop with
             | None => Ok (generated ++ successes atts)
             | Some e => Raise e
             end) /\
    Processed os folders s atts s' stop.
Proof.
  induction folders as [|f rest IH]; intros generated s.
  - exists [], s, None. cbn. rewrite app_nil_r. eauto using Processed.
  - rewrite all_apps_loop_step.
    destruct (wanted os s f) as [[|]|e] eqn:Hw.
    + destruct (generate_app os (str os f) None None None None s)
        as [s1 [output|e]] eqn:Hg.
      * destruct (IH (generated ++ [output]) s1)
          as (atts & s' & stop & -> & HP).
        exists (Attempt f (Ok output) :: atts), s', stop. split.
        -- destruct stop; [done|]. cbn. by rewrite <- app_assoc.
        -- by eapply P_ok.
      * destruct (print os (report os f e) s1) as [s2 [[]|e']] eqn:Hpr.
        -- destruct (IH generated s2) as (atts & s' & stop & -> & HP).
           exists (Attempt f (Raise e) :: atts), s', stop. split; [done|].
           by eapply P_fail.
        -- exists [Attempt f (Raise e)], s2, (Some e'). split; [done|].
           by eapply P_stop_print.
    + destruct (IH generated s) as (atts & s' & stop & -> & HP).
      exists atts, s', stop. split; [done|]. by apply P_skip.
    + exists [], s, (Some e). split; [done|]. by apply P_stop_entry.
Qed.

Lemma Processed_sublist folders s atts s' stop :
  Processed os folders s atts s' stop -> sublist (map folder atts) folders.
Proof.
  induction 1; cbn.
  - done.
  - by apply sublist_cons.
  - by apply sublist_skip.
  - by apply sublist_skip.
  - apply sublist_nil_l.
  - apply sublist_skip, sublist_nil_l.
Qed.

(** A run that was left by an exception was left for an entry, by what
    the loop does outside the [try]: [is_dir], [parse_folder_name], or
    printing the line for a call that failed. *)
Lemma Processed_stop folders s atts s' e :
  Processed os folders s atts s' (Some e) ->
  exists f, f ∈ folders /\
    ((exists w, is_dir os w f = Raise e) \/
     parse_folder_name (name os f) = Raise e \/
     (exists s0 s1 e0,
        generate_app os (str os f) None None None None s0 = (s1, Raise e0) /\
        (print os (report os f e0) s1).2 = Raise e)).
Proof.
  intros H. remember (Some e) as stop eqn:Es.
  induction H as [s|f rest s atts s' stop Hw HP IH
                 |f rest s s1 output atts s' stop Hw Hg HP IH
                 |f rest s s1 e0 s2 atts s' stop Hw Hg Hpr HP IH
                 |f rest s e1 Hw
                 |f rest s s1 e0 s2 e1 Hw Hg Hpr].
  - done.
  - destruct (IH Es) as (f0 & Hin & Hf0). exists f0. split; [by right|done].
  - destruct (IH Es) as (f0 & Hin & Hf0). exists f0. split; [by right|done].
  - destruct (IH Es) as (f0 & Hin & Hf0). exists f0. split; [by right|done].
  - injection Es as ->. exists f. split; [by left|].
    unfold wanted in Hw.
    destruct (is_dir os (fs s) f) as [[|]|e1] eqn:Hd; cbn in Hw.
    + destruct (parse_folder_name (name os f)) as [md|e1] eqn:Hp;
        cbn in Hw; [done|]. simplify_eq. auto.
    + done.
    + simplify_eq. left. by exists (fs s).
  - injection Es as ->. exists f. split; [by left|].
    right. right. exists s, s1, e0. by rewrite Hpr.
Qed.

Lemma generate_all_apps_processed source_dir s listing :
  path_exists os (fs s) (under_base os source_dir) = Ok true ->
  iterdir os (fs s) (under_base os source_dir) = Ok listing ->
  exists atts s' stop,
    generate_all_apps os source_dir s = (s', ending atts stop) /\
    Processed os (Py.sorted (path_lt os) listing) s atts s' stop.
Proof.
  intros He Hl. unfold generate_all_apps. rewrite bind_eq, do_exists_eq, He.
  cbn. rewrite bind_eq. unfold look_r at 1. rewrite Hl.
  destruct (all_apps_loop_processed (Py.sorted (path_lt os) listing) [] s)
    as (atts & s' & stop & -> & HP).
  by exists atts, s', stop.
Qed.

End Facts.
(** * The claims *)

(** ** Folder names *)

(** C1, as amended.  For every name [{d}_with_pagerank_{m}_bpe_{n}] whose
    [d] is not empty and holds no line feed, whose [m] is [nmtf] or [pnmf]
    and whose [n] is a non-empty word of at most 4300 decimal digits,
    [parse_folder_name] succeeds and returns [d] and [m] as they stand and
    the value of [n] as the topic count: [k] when [n] is [k] in decimal.
    With more than 4300 digits [int] refuses the word and
    [parse_folder_name] raises a [ValueError]. *)
Theorem parse_folder_name_grammar (d m n : string) :
  d <> "" -> Str.all Str.is_dot d = true -> is_method m -> is_literal n ->
  (String.length n <= 4300 ->
   parse_folder_name (folder_name_of d m n)
   = Ok (Some (Metadata d m (int_of_digits n)))) /\
  (4300 < String.length n ->
   exists text,
     parse_folder_name (folder_name_of d m n) = Raise (ValueError text)) /\
  (forall k : nat, n = Py.str_of_nat k -> int_of_digits n = k).
Proof.
  intros Hd Hdot Hm Hl.
  pose proof (parse_folder_name_complete d m n Hd Hdot Hm Hl) as H.
  split_and!.
  - intros Hn. by rewrite H, int_small.
  - intros Hn. destruct (int_large n Hn) as [text E].
    exists text. by rewrite H, E.
  - intros k ->. apply int_of_digits_str_of_nat.
Qed.

Lemma parse_folder_name_grammar_witness :
  parse_folder_name "heart_failure_with_pagerank_nmtf_bpe_34"
  = Ok (Some (Metadata "heart_failure" "nmtf" 34)).
Proof.
  destruct (parse_folder_name_grammar "heart_failure" "nmtf" "34")
    as [H _].
  - discriminate.
  - reflexivity.
  - left. reflexivity.
  - split; [discriminate | reflexivity].
  - apply H. vm_compute. lia.
Defined.

(** C1 as stated fails twice: with an empty [d] the name is of the stated
    form and [parse_folder_name] returns nothing; and with the literal of
    ten to the power 4300 for [n], which has 4301 digits,
    [parse_folder_name] raises. *)
Lemma parse_folder_name_empty_dataset :
  is_method "nmtf" /\ is_literal "34" /\
  parse_folder_name (folder_name_of "" "nmtf" "34") = Ok None /\
  is_literal (Host.power_of_ten 4300) /\
  exists text,
    parse_folder_name (folder_name_of "a" "nmtf" (Host.power_of_ten 4300))
    = Raise (ValueError text).
Proof.
  split; [by left|]. split; [split; [discriminate | reflexivity]|].
  split; [vm_compute; reflexivity|].
  split; [split; [discriminate | vm_compute; reflexivity]|].
  eexists. vm_compute. reflexivity.
Qed.

(** C2, as amended.  A folder name of code points below 256 that is not
    of the grammar, and is not a name of the grammar followed by one line
    feed, is rejected by [parse_folder_name]; [studyXYZ_pnmf_bpe_10] is such
    a name; and [generate_app], unless it is given all of [prefix],
    [method] and [dataset], raises for a folder whose name is rejected (a
    [ValueError] when the folder exists) and leaves the state as it
    was. *)
Theorem parse_folder_name_rejects :
  (forall s : string,
     matches_grammar s = false -> matches_grammar (chomp s) = false ->
     parse_folder_name s = Ok None) /\
  parse_folder_name "studyXYZ_pnmf_bpe_10" = Ok None /\
  (forall (path world : Type) (os : Os path world) (sf : string)
          (od p m d : option string) (s : state path world),
     Py.truthy p && Py.truthy m && Py.truthy d = false ->
     parse_folder_name (name os (under_base os sf)) = Ok None ->
     exists e, generate_app os sf od p m d s = (s, Raise e) /\
       (path_exists os (fs s) (under_base os sf) = Ok true ->
        e = ValueError ("Invalid folder name format: "
                        +:+ name os (under_base os sf)))).
Proof.
  split; [exact parse_folder_name_none|].
  split; [by vm_compute|].
  intros. by apply generate_app_bad_name.
Qed.

Lemma parse_folder_name_rejects_witness :
  parse_folder_name "studyXYZ_pnmf_bpe_10" = Ok None /\
  exists e,
    generate_app Host.os Host.study None None None None Host.start_odd
    = (Host.start_odd, Raise e) /\
    (path_exists Host.os (fs Host.start_odd)
       (under_base Host.os Host.study) = Ok true ->
     e = ValueError ("Invalid folder name format: "
                     +:+ name Host.os (under_base Host.os Host.study))).
Proof.
  split.
  - apply (proj1 parse_folder_name_rejects "studyXYZ_pnmf_bpe_10");
      vm_compute; reflexivity.
  - apply (proj2 (proj2 parse_folder_name_rejects) string Host.world Host.os);
      vm_compute; reflexivity.
Defined.

(** C2 as stated fails twice: a name of the grammar followed by a line feed
    is not of the grammar and is parsed all the same; and [generate_app]
    given [prefix], [method] and [dataset] generates an app for a folder
    whose name is rejected. *)
Lemma parse_folder_name_accepts_outside_grammar :
  matches_grammar Host.lf_name = false /\
  parse_folder_name Host.lf_name = Ok (Some (Metadata "a" "nmtf" 3)) /\
  parse_folder_name (name Host.os (under_base Host.os Host.study))
  = Ok None /\
  (generate_app Host.os Host.study None
     (Some "run1") (Some "pnmf") (Some "studyXYZ") Host.start_odd).2
  = Ok "/repo/studyXYZ-pnmf-1".
Proof. repeat split; vm_compute; reflexivity. Qed.

(** ** Topic counts *)

(** C3.  A document whose [relevance] entry is a mapping of size [k] has
    topic count [k], whatever else it holds, a [gensim] entry included. *)
Theorem get_topic_count_relevance (doc rel : gmap string json) (k : nat) :
  doc !! "relevance" = Some (JObj rel) -> size rel = k ->
  get_topic_count (JObj doc) = Ok k.
Proof. intros H <-. by rewrite (get_topic_count_len _ _ H). Qed.

Lemma get_topic_count_relevance_witness :
  Host.both_members !! "gensim" = Some (JObj Host.gensim_members) /\
  1 <= 2 /\
  get_topic_count (JObj Host.both_members) = Ok 2.
Proof.
  split; [vm_compute; reflexivity|]. split; [lia|].
  apply (get_topic_count_relevance Host.both_members Host.two_topics 2);
    vm_compute; reflexivity.
Defined.

(** C4.  A document without a [relevance] key whose [gensim] entry is a
    mapping with a [c_v_per_topic] entry that is a mapping of size [k] has
    topic count [k]. *)
Theorem get_topic_count_gensim (doc gensim cv : gmap string json) (k : nat) :
  doc !! "relevance" = None ->
  doc !! "gensim" = Some (JObj gensim) ->
  gensim !! "c_v_per_topic" = Some (JObj cv) ->
  size cv = k ->
  get_topic_count (JObj doc) = Ok k.
Proof. intros Hr Hg Hc <-. by apply get_topic_count_c_v with gensim. Qed.

Lemma get_topic_count_gensim_witness :
  get_topic_count (JObj Host.coherence_members) = Ok 1.
Proof.
  apply (get_topic_count_gensim Host.coherence_members Host.gensim_members
           Host.one_topic 1); vm_compute; reflexivity.
Defined.

(** C5, as amended.  A document without a [relevance] key whose [gensim]
    entry is absent, or is a mapping without a [c_v_per_topic] key, has
    topic count 0; and [generate_app] raises a [ValueError] for a document
    whose topic count is 0, before it has written or printed anything. *)
Theorem get_topic_count_zero :
  (forall doc : gmap string json,
     doc !! "relevance" = None ->
     (doc !! "gensim" = None \/
      exists gensim, doc !! "gensim" = Some (JObj gensim) /\
                     gensim !! "c_v_per_topic" = None) ->
     get_topic_count (JObj doc) = Ok 0) /\
  (forall (path world : Type) (os : Os path world) (sf : string)
          (od p m d : option string) (s : state path world)
          (md : metadata) (pre : string) (f : path) (data : json),
     path_exists os (fs s) (under_base os sf) = Ok true ->
     initial_metadata (name os (under_base os sf)) p m d = Ok (md, pre) ->
     find_data_file os (under_base os sf) pre s = (s, Ok (Some f)) ->
     json_load os (fs s) f = Ok data ->
     get_topic_count data = Ok 0 ->
     generate_app os sf od p m d s
     = (s, Raise (ValueError "Could not determine topic count from data"))).
Proof.
  split; [exact get_topic_count_neither|].
  intros. by eapply generate_app_zero_count.
Qed.

Lemma get_topic_count_zero_witness :
  get_topic_count (JObj Host.other_members) = Ok 0 /\
  generate_app Host.os Host.void None None None None Host.start_odd
  = (Host.start_odd,
     Raise (ValueError "Could not determine topic count from data")).
Proof.
  split.
  - apply (proj1 get_topic_count_zero Host.other_members);
      [vm_compute; reflexivity | left; vm_compute; reflexivity].
  - eapply (proj2 get_topic_count_zero string Host.world Host.os Host.void
              None None None None Host.start_odd);
      [ vm_compute; reflexivity
      | vm_compute; reflexivity
      | apply find_data_file_run; vm_compute; reflexivity
      | vm_compute; reflexivity
      | vm_compute; reflexivity ].
Defined.

(** C5 as stated fails: a document whose [gensim] entry is a number holds
    neither a [relevance] key nor a [gensim] mapping, and [get_topic_count]
    raises a [TypeError] instead of returning 0. *)
Lemma topic_count_of_number_gensim :
  Host.number_members !! "relevance" = None /\
  Host.number_members !! "gensim" = Some (JInt 5) /\
  get_topic_count (JObj Host.number_members)
  = Raise (TypeError "argument of type 'int' is not iterable").
Proof. repeat split; vm_compute; reflexivity. Qed.

(** C10.  A document whose [relevance] entry is the empty mapping has topic
    count 0, a usable [gensim] entry notwithstanding, and [generate_app]
    raises for it. *)
Theorem get_topic_count_empty_relevance (doc : gmap string json) :
  doc !! "relevance" = Some (JObj ∅) ->
  get_topic_count (JObj doc) = Ok 0 /\
  (forall (path world : Type) (os : Os path world) (sf : string)
          (od p m d : option string) (s : state path world)
          (md : metadata) (pre : string) (f : path),
     path_exists os (fs s) (under_base os sf) = Ok true ->
     initial_metadata (name os (under_base os sf)) p m d = Ok (md, pre) ->
     find_data_file os (under_base os sf) pre s = (s, Ok (Some f)) ->
     json_load os (fs s) f = Ok (JObj doc) ->
     generate_app os sf od p m d s
     = (s, Raise (ValueError "Could not determine topic count from data"))).
Proof.
  intros H.
  assert (get_topic_count (JObj doc) = Ok 0) as H0
    by (by rewrite (get_topic_count_len _ _ H)).
  split; [done|]. intros. by eapply generate_app_zero_count.
Qed.

Lemma get_topic_count_empty_relevance_witness :
  get_topic_count (JObj Host.coherence_members) = Ok 1 /\
  Host.hollow_members !! "gensim" = Host.coherence_members !! "gensim" /\
  get_topic_count (JObj Host.hollow_members) = Ok 0 /\
  generate_app Host.os Host.hollow None None None None Host.start_odd
  = (Host.start_odd,
     Raise (ValueError "Could not determine topic count from data")).
Proof.
  split; [vm_compute; reflexivity|]. split; [vm_compute; reflexivity|].
  assert (Host.hollow_members !! "relevance" = Some (JObj ∅)) as H
    by (vm_compute; reflexivity).
  split.
  - apply (proj1 (get_topic_count_empty_relevance Host.hollow_members H)).
  - eapply (proj2 (get_topic_count_empty_relevance Host.hollow_members H)
              string Host.world Host.os Host.hollow None None None None
              Host.start_odd);
      [ vm_compute; reflexivity
      | vm_compute; reflexivity
      | apply find_data_file_run; vm_compute; reflexivity
      | vm_compute; reflexivity ].
Defined.

(** ** Data files *)

(** C6, as amended.  With [pre] the prefix of the file names,
    [find_data_file] returns the [{pre}_coherence_scores.json] file when it
    exists, whether or not the [{pre}_relevance_top_words.json] file exists
    too; the latter when only it exists; and nothing when neither exists.
    [generate_app] takes for [pre] the folder name, or its [prefix]
    argument when it is given [prefix], [method] and [dataset]; when
    neither file exists it raises and leaves the state as it was, with a
    [FileNotFoundError] when the folder exists and a descriptor was
    obtained. *)
Theorem find_data_file_precedence :
  forall (path world : Type) (os : Os path world),
  (forall (sp : path) (pre : string) (s : state path world),
     let coherence_file := joinpath os sp (pre +:+ "_coherence_scores.json") in
     let relevance_file :=
       joinpath os sp (pre +:+ "_relevance_top_words.json") in
     (path_exists os (fs s) coherence_file = Ok true ->
      find_data_file os sp pre s = (s, Ok (Some coherence_file))) /\
     (path_exists os (fs s) coherence_file = Ok false ->
      path_exists os (fs s) relevance_file = Ok true ->
      find_data_file os sp pre s = (s, Ok (Some relevance_file))) /\
     (path_exists os (fs s) coherence_file = Ok false ->
      path_exists os (fs s) relevance_file = Ok false ->
      find_data_file os sp pre s = (s, Ok None))) /\
  (forall (sf : string) (od p m d : option string) (s : state path world),
     let sp := under_base os sf in
     let pre := if Py.truthy p && Py.truthy m && Py.truthy d
                then default "" p else name os sp in
     path_exists os (fs s)
       (joinpath os sp (pre +:+ "_coherence_scores.json")) = Ok false ->
     path_exists os (fs s)
       (joinpath os sp (pre +:+ "_relevance_top_words.json")) = Ok false ->
     exists e, generate_app os sf od p m d s = (s, Raise e) /\
       (path_exists os (fs s) sp = Ok true ->
        (exists md pre', initial_metadata (name os sp) p m d = Ok (md, pre')) ->
        e = FileNotFoundError ("No data file found in " +:+ str os sp))).
Proof.
  intros path world os. split.
  - intros sp pre s. cbn zeta. rewrite find_data_file_cases.
    split_and!.
    + by intros ->.
    + by intros -> ->.
    + by intros -> ->.
  - intros. by apply generate_app_no_data_file.
Qed.

Lemma find_data_file_precedence_witness :
  (* both files: the coherence scores win *)
  path_exists Host.os Host.disk
    (Host.zeta +:+ "/zeta_with_pagerank_pnmf_bpe_10_relevance_top_words.json")
  = Ok true /\
  find_data_file Host.os Host.zeta "zeta_with_pagerank_pnmf_bpe_10" Host.start
  = (Host.start,
     Ok (Some (Host.zeta
               +:+ "/zeta_with_pagerank_pnmf_bpe_10_coherence_scores.json"))) /\
  (* the relevance file alone *)
  find_data_file Host.os Host.heart "heart_failure_with_pagerank_nmtf_bpe_34"
    Host.start
  = (Host.start,
     Ok (Some (Host.heart
               +:+ "/heart_failure_with_pagerank_nmtf_bpe_34_relevance_top_words.json"))) /\
  (* neither, by the folder name *)
  find_data_file Host.os Host.bad "bad_with_pagerank_pnmf_bpe_5" Host.start
  = (Host.start, Ok None) /\
  (exists e,
    generate_app Host.os Host.bad None None None None Host.start
    = (Host.start, Raise e) /\
    (path_exists Host.os (fs Host.start) (under_base Host.os Host.bad)
     = Ok true ->
     (exists md pre',
        initial_metadata (name Host.os (under_base Host.os Host.bad))
          None None None = Ok (md, pre')) ->
     e = FileNotFoundError
           ("No data file found in "
            +:+ str Host.os (under_base Host.os Host.bad)))) /\
  (* neither, by the prefix given *)
  exists e,
    generate_app Host.os Host.study None
      (Some "run2") (Some "pnmf") (Some "studyXYZ") Host.start_odd
    = (Host.start_odd, Raise e) /\
    (path_exists Host.os (fs Host.start_odd) (under_base Host.os Host.study)
     = Ok true ->
     (exists md pre',
        initial_metadata (name Host.os (under_base Host.os Host.study))
          (Some "run2") (Some "pnmf") (Some "studyXYZ") = Ok (md, pre')) ->
     e = FileNotFoundError
           ("No data file found in "
            +:+ str Host.os (under_base Host.os Host.study))).
Proof.
  split; [vm_compute; reflexivity|].
  split.
  { apply (proj1 (proj1 (find_data_file_precedence string Host.world Host.os)
                    Host.zeta "zeta_with_pagerank_pnmf_bpe_10" Host.start)).
    vm_compute; reflexivity. }
  split.
  { apply (proj1 (proj2 (proj1 (find_data_file_precedence string Host.world
                                  Host.os)
                    Host.heart "heart_failure_with_pagerank_nmtf_bpe_34"
                    Host.start)));
      vm_compute; reflexivity. }
  split.
  { apply (proj2 (proj2 (proj1 (find_data_file_precedence string Host.world
                                  Host.os)
                    Host.bad "bad_with_pagerank_pnmf_bpe_5" Host.start)));
      vm_compute; reflexivity. }
  split.
  { apply (proj2 (find_data_file_precedence string Host.world Host.os)
             Host.bad None None None None Host.start);
      vm_compute; reflexivity. }
  apply (proj2 (find_data_file_precedence string Host.world Host.os)
           Host.study None (Some "run2") (Some "pnmf") (Some "studyXYZ")
           Host.start_odd);
    vm_compute; reflexivity.
Defined.

(** C6 as stated fails: in the folder [studyXYZ_pnmf_bpe_10] neither file
    named after the folder exists, and [find_data_file] finds none by the
    folder name; yet [generate_app], given the prefix [run1] with a method
    and a dataset, finds [run1_coherence_scores.json] and generates the
    app. *)
Lemma generate_app_finds_by_prefix :
  path_exists Host.os Host.disk_odd
    (joinpath Host.os Host.study
       (name Host.os Host.study +:+ "_coherence_scores.json")) = Ok false /\
  path_exists Host.os Host.disk_odd
    (joinpath Host.os Host.study
       (name Host.os Host.study +:+ "_relevance_top_words.json")) = Ok false /\
  (find_data_file Host.os Host.study (name Host.os Host.study)
     Host.start_odd).2 = Ok None /\
  (generate_app Host.os Host.study None
     (Some "run1") (Some "pnmf") (Some "studyXYZ") Host.start_odd).2
  = Ok "/repo/studyXYZ-pnmf-1".
Proof. repeat split; vm_compute; reflexivity. Qed.

(** ** Output directories *)


Example generate_output_dir_name_heart :
  generate_output_dir_name (Metadata "heart_failure" "nmtf" 34)
  = "heart-failure-nmtf-34".
Proof. reflexivity. Qed.

(** ** The topic count of the descriptor *)

(** C8.  When [generate_app] goes by the folder name, got the descriptor
    [md] from it and the topic count [n] from the document, the first half
    of [generate_app] ends in the state it started in, nothing written and
    nothing printed, with a descriptor that has the dataset and the method
    of [md] and the topic count [n]; all output is produced by the second
    half from that descriptor. *)
Theorem generate_app_topic_count_overwritten :
  forall (path world : Type) (os : Os path world) (sf : string)
         (od p m d : option string) (s : state path world)
         (md : metadata) (f : path) (data : json) (n : nat),
    Py.truthy p && Py.truthy m && Py.truthy d = false ->
    path_exists os (fs s) (under_base os sf) = Ok true ->
    parse_folder_name (name os (under_base os sf)) = Ok (Some md) ->
    find_data_file os (under_base os sf) (name os (under_base os sf)) s
    = (s, Ok (Some f)) ->
    json_load os (fs s) f = Ok data ->
    get_topic_count data = Ok n ->
    n <> 0 ->
    exists a : prepared path,
      generate_app_metadata os sf p m d s = (s, Ok a) /\
      generate_app os sf od p m d s = generate_app_output os od a s /\
      dataset (meta a) = dataset md /\
      method (meta a) = method md /\
      topic_count (meta a) = n /\
      count a = n.
Proof.
  intros path world os sf od p m d s md f data n Hm He Hp Hf Hl Hc Hn.
  assert (initial_metadata (name os (under_base os sf)) p m d
          = Ok (md, name os (under_base os sf))) as Hi.
  { unfold initial_metadata. by rewrite Hm, Hp. }
  pose proof (generate_app_metadata_run os sf p m d s _ _ _ _ _
                He Hi Hf Hl Hc) as Hrun.
  assert ((n =? 0) = false) as Hz by (by apply Nat.eqb_neq).
  rewrite Hz in Hrun.
  eexists. split; [exact Hrun|].
  split; [|done].
  unfold generate_app. rewrite bind_eq, Hrun. done.
Qed.

Lemma generate_app_topic_count_overwritten_witness :
  parse_folder_name (name Host.os (under_base Host.os Host.heart))
  = Ok (Some (Metadata "heart_failure" "nmtf" 34)) /\
  exists a : prepared string,
    generate_app_metadata Host.os Host.heart None None None Host.start
    = (Host.start, Ok a) /\
    generate_app Host.os Host.heart None None None None Host.start
    = generate_app_output Host.os None a Host.start /\
    dataset (meta a) = "heart_failure" /\
    method (meta a) = "nmtf" /\
    topic_count (meta a) = 2 /\
    count a = 2.
Proof.
  split; [vm_compute; reflexivity|].
  eapply (generate_app_topic_count_overwritten string Host.world Host.os
            Host.heart None None None None Host.start
            (Metadata "heart_failure" "nmtf" 34));
    [ vm_compute; reflexivity
    | vm_compute; reflexivity
    | vm_compute; reflexivity
    | apply find_data_file_run; vm_compute; reflexivity
    | vm_compute; reflexivity
    | vm_compute; reflexivity
    | discriminate ].
Defined.

(** ** One folder after the other *)

(** C9, as amended.  [generate_all_apps], on a source directory that
    exists and can be listed, goes through the sorted listing once, calls
    [generate_app] for every directory whose name [parse_folder_name]
    accepts, prints a line for a call that raised and goes on with the next
    folder, and returns the output paths of the calls that succeeded, in
    order: no exception of [generate_app] ends the run.  What the [try]
    does not cover does: when [is_dir] or [parse_folder_name] raises for an
    entry, or printing the line for a failed call raises, that exception
    leaves [generate_all_apps] and the entries after that one are not
    looked at. *)
Theorem generate_all_apps_isolates_failures :
  forall (path world : Type) (os : Os path world) (source_dir : string)
         (s : state path world) (listing : list path),
    path_exists os (fs s) (under_base os source_dir) = Ok true ->
    iterdir os (fs s) (under_base os source_dir) = Ok listing ->
    exists (atts : list (attempt path)) (s' : state path world)
           (stop : option exn),
      generate_all_apps os source_dir s
      = (s', match stop with
             | None => Ok (successes atts)
             | Some e => Raise e
             end) /\
      Processed os (Py.sorted (path_lt os) listing) s atts s' stop /\
      sublist (map folder atts) (Py.sorted (path_lt os) listing) /\
      Py.sorted (path_lt os) listing ≡ₚ listing /\
      (forall e, stop = Some e ->
       exists f, f ∈ listing /\
         ((exists w, is_dir os w f = Raise e) \/
          parse_folder_name (name os f) = Raise e \/
          (exists s0 s1 e0,
             generate_app os (str os f) None None None None s0
             = (s1, Raise e0) /\
             (print os (report os f e0) s1).2 = Raise e))).
Proof.
  intros path world os source_dir s listing He Hl.
  destruct (generate_all_apps_processed os source_dir s listing He Hl)
    as (atts & s' & stop & Hrun & HP).
  exists atts, s', stop.
  split_and!; [by destruct stop|done| |apply sorted_perm|].
  - by eapply Processed_sublist.
  - intros e ->. apply Processed_stop in HP as (f & Hin & Hf).
    exists f. split; [|done].
    by rewrite <- (sorted_perm (path_lt os) listing).
Qed.

Lemma generate_all_apps_isolates_failures_witness :
  exists (atts : list (attempt string)) (s' : state string Host.world)
         (stop : option exn),
    generate_all_apps Host.os "to_generate_from" Host.start
    = (s', match stop with
           | None => Ok (successes atts)
           | Some e => Raise e
           end) /\
    Processed Host.os
      [Host.bad; Host.heart; "/repo/to_generate_from/notes.txt"; Host.zeta]
      Host.start atts s' stop /\
    sublist (map folder atts)
      [Host.bad; Host.heart; "/repo/to_generate_from/notes.txt"; Host.zeta] /\
    [Host.bad; Host.heart; "/repo/to_generate_from/notes.txt"; Host.zeta]
    ≡ₚ ["/repo/to_generate_from/notes.txt"; Host.zeta; Host.bad; Host.heart] /\
    (forall e, stop = Some e ->
     exists f,
       f ∈ ["/repo/to_generate_from/notes.txt"; Host.zeta; Host.bad;
            Host.heart] /\
       ((exists w, is_dir Host.os w f = Raise e) \/
        parse_folder_name (name Host.os f) = Raise e \/
        (exists s0 s1 e0,
           generate_app Host.os (str Host.os f) None None None None s0
           = (s1, Raise e0) /\
           (print Host.os (report Host.os f e0) s1).2 = Raise e))).
Proof.
  apply (generate_all_apps_isolates_failures string Host.world Host.os
           "to_generate_from" Host.start
           ["/repo/to_generate_from/notes.txt"; Host.zeta; Host.bad;
            Host.heart]);
    vm_compute; reflexivity.
Defined.

(** C9 as stated fails: [is_dir] is asked outside the [try].  Here the
    entry [alpha] may not be examined and comes first; the folder after it
    has a good name and [generate_app] would succeed for it, but the
    [PermissionError] of [is_dir] ends [generate_all_apps] and nothing is
    generated. *)
Lemma generate_all_apps_stopped_by_entry :
  iterdir Host.os Host.disk_denied (under_base Host.os "to_generate_from")
  = Ok [Host.alpha; Host.heart] /\
  Py.sorted (path_lt Host.os) [Host.alpha; Host.heart]
  = [Host.alpha; Host.heart] /\
  parse_folder_name (name Host.os Host.heart)
  = Ok (Some (Metadata "heart_failure" "nmtf" 34)) /\
  (generate_app Host.os (str Host.os Host.heart) None None None None
     Host.start_denied).2 = Ok "/repo/heart-failure-nmtf-2" /\
  (generate_all_apps Host.os "to_generate_from" Host.start_denied).2
  = Raise (Host.denied Host.alpha) /\
  out (generate_all_apps Host.os "to_generate_from" Host.start_denied).1
  = [].
Proof. repeat split; vm_compute; reflexivity. Qed.

Example generate_all_apps_run :
  (generate_all_apps Host.os "to_generate_from" Host.start).2
  = Ok ["/repo/heart-failure-nmtf-2"; "/repo/zeta-pnmf-1"].
Proof. vm_compute. reflexivity. Qed.

(** * More of the program *)

(** ** What [parse_folder_name] returns *)

Lemma folder_name_of_tail d m n tail :
  d +:+ "_with_pagerank_" +:+ m +:+ "_bpe_" +:+ n +:+ tail
  = folder_name_of d m n +:+ tail.
Proof. unfold folder_name_of. by rewrite !str_app_assoc. Qed.

(** X1.  On names of code points below 256: a descriptor that
    [parse_folder_name] returns has the method [nmtf] or [pnmf] and a
    dataset that is not empty and holds no line feed; the name is the
    dataset, the two markers, the method and a non-empty word of at most
    4300 digits [0-9], followed by nothing or by one line feed; the topic
    count is the value of the digits. *)
Theorem parse_folder_name_shape (s : string) (md : metadata) :
  parse_folder_name s = Ok (Some md) ->
  is_method (method md) /\
  dataset md <> "" /\
  Str.all Str.is_dot (dataset md) = true /\
  exists n tail,
    is_literal n /\
    String.length n <= 4300 /\
    (tail = "" \/ tail = String Str.newline "") /\
    s = folder_name_of (dataset md) (method md) n +:+ tail /\
    topic_count md = int_of_digits n.
Proof.
  intros H.
  apply parse_folder_name_sound in H
    as (d & m & n & tail & -> & Hd & Hdot & Hm & Hl & Ht & Hn & ->).
  cbn. split_and!; try done.
  exists n, tail. split_and!; try done. apply folder_name_of_tail.
Qed.

Lemma parse_folder_name_shape_witness :
  is_method "nmtf" /\
  exists n tail,
    is_literal n /\
    String.length n <= 4300 /\
    (tail = "" \/ tail = String Str.newline "") /\
    Host.lf_name = folder_name_of "a" "nmtf" n +:+ tail /\
    3 = int_of_digits n.
Proof.
  destruct (parse_folder_name_shape Host.lf_name (Metadata "a" "nmtf" 3))
    as (Hm & _ & _ & H).
  - vm_compute. reflexivity.
  - split; [exact Hm | exact H].
Defined.

(** X2.  One line feed after a name of the grammar is overlooked:
    [parse_folder_name] does with the name followed by a line feed what it
    does with the name, which is to return its descriptor when the count
    has at most 4300 digits, and to raise the [ValueError] of [int]
    otherwise. *)
Theorem parse_folder_name_line_feed (d m n : string) :
  d <> "" -> Str.all Str.is_dot d = true -> is_method m -> is_literal n ->
  parse_folder_name (folder_name_of d m n +:+ String Str.newline "")
  = parse_folder_name (folder_name_of d m n) /\
  (String.length n <= 4300 ->
   parse_folder_name (folder_name_of d m n +:+ String Str.newline "")
   = Ok (Some (Metadata d m (int_of_digits n)))) /\
  (4300 < String.length n ->
   exists text,
     parse_folder_name (folder_name_of d m n +:+ String Str.newline "")
     = Raise (ValueError text)).
Proof.
  intros Hd Hdot Hm Hl.
  assert (parse_folder_name (folder_name_of d m n +:+ String Str.newline "")
          = (topic_count ← Py.int n; Ok (Some (Metadata d m topic_count))))
    as H.
  { apply parse_folder_name_parts; auto. apply pattern_complete; auto. }
  split_and!.
  - by rewrite H, parse_folder_name_complete.
  - intros Hn. by rewrite H, int_small.
  - intros Hn. destruct (int_large n Hn) as [text E].
    exists text. by rewrite H, E.
Qed.

Lemma parse_folder_name_line_feed_witness :
  parse_folder_name Host.lf_name = Ok (Some (Metadata "a" "nmtf" 3)).
Proof.
  destruct (parse_folder_name_line_feed "a" "nmtf" "3") as (_ & H & _).
  - discriminate.
  - reflexivity.
  - left. reflexivity.
  - split; [discriminate | reflexivity].
  - apply H. vm_compute. lia.
Defined.

(** ** Output names are no source names *)

Lemma digits_no_underscore w :
  Str.all Str.is_digit w = true -> Str.all no_underscore w = true.
Proof.
  induction w as [|c w IH]; [done|]. simpl.
  intros [Hc Hw]%andb_true_iff. rewrite IH, andb_true_r by done.
  unfold no_underscore. destruct (Ascii.eqb c Str.underscore) eqn:E; [|done].
  apply Ascii.eqb_eq in E as ->. done.
Qed.

Lemma output_dir_name_eq md :
  generate_output_dir_name md
  = dashed (dataset md) +:+ "-" +:+ method md +:+ "-"
    +:+ Py.str_of_nat (topic_count md).
Proof.
  unfold generate_output_dir_name, Py.replace.
  by rewrite replace_go_underscore.
Qed.

(** X3.  The output directory name made from a descriptor that
    [parse_folder_name] returned, with whatever topic count, is not a name
    [parse_folder_name] accepts. *)
Theorem output_dir_name_not_parsed (s : string) (md : metadata) (k : nat) :
  parse_folder_name s = Ok (Some md) ->
  parse_folder_name (generate_output_dir_name (set_topic_count md k))
  = Ok None.
Proof.
  intros H.
  destruct (Re.rematch pattern
              (generate_output_dir_name (set_topic_count md k)))
    as [gf|] eqn:E; [exfalso|by apply parse_folder_name_nomatch].
  apply matched_has_underscore in E.
  apply parse_folder_name_sound in H
    as (d & m & n & tail & _ & _ & _ & Hm & _ & _ & _ & ->).
  rewrite output_dir_name_eq in E. cbn in E.
  rewrite !str_all_app in E. revert E.
  assert (Str.all no_underscore (dashed d) = true) as ->
    by apply dashed_no_underscore.
  rewrite (digits_no_underscore (Py.str_of_nat k))
    by apply str_of_nat_literal.
  by destruct Hm as [-> | ->].
Qed.

Lemma output_dir_name_not_parsed_witness :
  parse_folder_name "heart-failure-nmtf-2" = Ok None.
Proof.
  apply (output_dir_name_not_parsed "heart_failure_with_pagerank_nmtf_bpe_34"
           (Metadata "heart_failure" "nmtf" 34) 2).
  vm_compute. reflexivity.
Defined.

Lemma dashed_idempotent s : dashed (dashed s) = dashed s.
Proof.
  induction s as [|c s IH]; [done|]. simpl. rewrite IH. f_equal.
  destruct (Ascii.eqb c Str.underscore) eqn:E; [done|]. by rewrite E.
Qed.

(** X4.  Dashes that are in the dataset already are kept, so two datasets
    that differ only in having a dash where the other has an underscore
    get the same output directory name. *)
Theorem generate_output_dir_name_merges (d1 d2 m : string) (k : nat) :
  dashed d1 = dashed d2 ->
  generate_output_dir_name (Metadata d1 m k)
  = generate_output_dir_name (Metadata d2 m k).
Proof. intros H. rewrite !output_dir_name_eq. cbn. by rewrite H. Qed.

Lemma generate_output_dir_name_merges_witness :
  generate_output_dir_name (Metadata "heart_failure" "nmtf" 34)
  = generate_output_dir_name (Metadata "heart-failure" "nmtf" 34).
Proof.
  apply (generate_output_dir_name_merges "heart_failure" "heart-failure").
  reflexivity.
Defined.

(** ** [get_topic_count] off the expected shapes *)

(** X5.  When the document has a [relevance] key, the topic count is
    [len] of its value, and [gensim] is not looked at: a list gives its
    length, and a number, a truth value or [null] makes [get_topic_count]
    raise a [TypeError]. *)
Theorem get_topic_count_relevance_first (doc : gmap string json) (v : json) :
  doc !! "relevance" = Some v ->
  get_topic_count (JObj doc) = Py.len v /\
  (forall l, v = JArr l -> get_topic_count (JObj doc) = Ok (length l)) /\
  (v = JNull \/ (exists b, v = JBool b) \/ (exists n, v = JInt n)
   \/ (exists x, v = JFloat x) ->
   exists text, get_topic_count (JObj doc) = Raise (TypeError text)).
Proof.
  intros H. rewrite (get_topic_count_len _ _ H). split_and!; [done| |].
  - by intros l ->.
  - intros [-> | [[b ->] | [[n ->] | [x ->]]]]; by eexists.
Qed.

Lemma get_topic_count_relevance_first_witness :
  exists text,
    get_topic_count
      (JObj (<["relevance" := JNull]> Host.coherence_members))
    = Raise (TypeError text).
Proof.
  apply (get_topic_count_relevance_first
           (<["relevance" := JNull]> Host.coherence_members) JNull).
  - vm_compute. reflexivity.
  - left. reflexivity.
Defined.

(** X6.  A topic count above 0 comes from a JSON object with a
    [relevance] or a [gensim] key only: a document that is an array, a
    string, a number, a truth value or [null] never gives one. *)
Theorem get_topic_count_positive (data : json) (k : nat) :
  get_topic_count data = Ok k -> 0 < k ->
  exists doc : gmap string json,
    data = JObj doc /\
    (is_Some (doc !! "relevance") \/ is_Some (doc !! "gensim")).
Proof.
  intros H Hk. destruct data as [| b | n | x | w | l | doc];
    try discriminate H.
  - exfalso. unfold get_topic_count in H. cbn in H.
    destruct (Py.contains "relevance" w); cbn in H; [done|].
    destruct (Py.contains "gensim" w); cbn in H; [done|].
    simplify_eq. lia.
  - exfalso. unfold get_topic_count in H. cbn in H.
    destruct (existsb _ l); cbn in H; [done|].
    destruct (existsb _ l); cbn in H; [done|].
    simplify_eq. lia.
  - exists doc. split; [done|].
    destruct (doc !! "relevance") as [v|] eqn:Hr; [left; by eexists|].
    destruct (doc !! "gensim") as [g|] eqn:Hg; [right; by eexists|].
    rewrite get_topic_count_neither in H by auto. simplify_eq. lia.
Qed.

Lemma get_topic_count_positive_witness :
  exists doc : gmap string json,
    JObj Host.both_members = JObj doc /\
    (is_Some (doc !! "relevance") \/ is_Some (doc !! "gensim")).
Proof.
  apply (get_topic_count_positive (JObj Host.both_members) 2).
  - vm_compute. reflexivity.
  - lia.
Defined.

(** ** The palette of [generate_charts_js] *)

Lemma extend_colors_enough fuel : forall colors n,
  0 < length colors -> n <= fuel + length colors ->
  n <= length (extend_colors fuel colors n).
Proof.
  induction fuel as [|fuel IH]; intros colors n Hl Hn; cbn [extend_colors].
  - lia.
  - destruct (length colors <? n) eqn:E; [|apply Nat.ltb_ge in E; lia].
    apply IH; rewrite length_app; lia.
Qed.

Lemma extend_colors_cycle fuel : forall colors n,
  length colors mod 45 = 0 ->
  (forall i, i < length colors -> colors !! i = base_colors !! (i mod 45)) ->
  length colors <= length (extend_colors fuel colors n) /\
  forall i, i < length (extend_colors fuel colors n) ->
    extend_colors fuel colors n !! i = base_colors !! (i mod 45).
Proof.
  induction fuel as [|fuel IH]; intros colors n Hm Hc; cbn [extend_colors];
    [done|].
  destruct (length colors <? n); [|done].
  destruct (IH (colors ++ colors) n) as [Hlen Hcyc].
  - rewrite length_app.
    apply Nat.Div0.mod_divides in Hm as [q Hq]. rewrite Hq.
    replace (45 * q + 45 * q) with (0 + (q + q) * 45) by lia.
    by rewrite Nat.Div0.mod_add.
  - intros i Hi. rewrite length_app in Hi.
    destruct (decide (i < length colors)) as [Hlt | Hge].
    + rewrite lookup_app_l by done. by apply Hc.
    + rewrite lookup_app_r by lia. rewrite Hc by lia.
      f_equal.
      apply Nat.Div0.mod_divides in Hm as [q Hq].
      replace i with ((i - length colors) + q * 45) at 2 by lia.
      by rewrite Nat.Div0.mod_add.
  - split; [|done]. rewrite length_app in Hlen. lia.
Qed.

(** X7.  The palette has [max(topic_count, 25)] colours, and its colour
    number [i] is the base colour number [i mod 45]: the 45 base colours,
    cut to 25 at least, repeated in order when there are more topics. *)
Theorem chart_colors_cycle (topic_count : nat) :
  chart_colors topic_count
  = map (fun i => default "" (base_colors !! (i mod 45)))
      (seq 0 (max topic_count 25)).
Proof.
  unfold chart_colors.
  destruct (extend_colors_cycle topic_count base_colors topic_count)
    as [Hlen Hcyc]; [done| |].
  { intros i Hi. change (length base_colors) with 45 in Hi.
    by rewrite Nat.mod_small. }
  pose proof (extend_colors_enough topic_count base_colors topic_count)
    as Hen.
  change (length base_colors) with 45 in *.
  set (colors := extend_colors topic_count base_colors topic_count) in *.
  assert (max topic_count 25 <= length colors) as Hmax by lia.
  apply list_eq. intros i.
  rewrite list_lookup_fmap.
  destruct (decide (i < max topic_count 25)) as [Hi | Hi].
  - rewrite lookup_take_lt by done.
    rewrite (lookup_seq_lt 0 (max topic_count 25) i Hi).
    cbn [fmap option_fmap option_map Nat.add].
    rewrite Hcyc by lia.
    assert (i mod 45 < length base_colors) as Hb
      by (apply Nat.mod_upper_bound; done).
    apply lookup_lt_is_Some in Hb as [c Hc]. rewrite Hc. reflexivity.
  - rewrite lookup_take_ge by lia.
    by rewrite (lookup_seq_ge 0 (max topic_count 25) i) by lia.
Qed.

(** ** Runs and their traces *)

Section Runs.

Context {path world : Type} (os : Os path world).

Implicit Types (P : event path -> Prop) (s : state path world).















End Runs.




Section Outputs.

Context {path world : Type} (os : Os path world).




End Outputs.

Section Steps.

Context {path world : Type} (os : Os path world).

Lemma bind_Ok_inv {A B} (m : M path world A) (f : A -> M path world B)
    s s' b :
  (m ≫= f) s = (s', Ok b) ->
  exists s1 a, m s = (s1, Ok a) /\ f a s1 = (s', Ok b).
Proof.
  rewrite bind_eq. destruct (m s) as [s1 [a|e]]; [|done].
  intros H. by exists s1, a.
Qed.

Lemma generate_app_succeeds sf od p m d s v :
  (generate_app os sf od p m d s).2 = Ok v ->
  exists a s',
    generate_app_metadata os sf p m d s = (s, Ok a) /\
    generate_app_output os od a s = (s', Ok v) /\
    (generate_app os sf od p m d s).1 = s'.
Proof.
  unfold generate_app. rewrite bind_eq.
  pose proof (generate_app_metadata_state os sf p m d s) as Hs.
  destruct (generate_app_metadata os sf p m d s) as [s1 [a|e]];
    cbn in Hs; subst s1; [|done].
  destruct (generate_app_output os od a s) as [s' r] eqn:E.
  cbn. intros ->. by exists a, s'.
Qed.

Lemma generate_app_output_value od a s s' v :
  generate_app_output os od a s = (s', Ok v) ->
  v = str os (output_path_of os od (meta a)).
Proof.
  unfold generate_app_output, output_path_of. cbn zeta.
  set (base := if Py.truthy od then _ else _).
  intros H.
  repeat (apply bind_Ok_inv in H as (? & ? & _ & H); cbn beta in H).
  by injection H as _ <-.
Qed.




End Steps.

(** ** [find_data_file], once more *)

(** X8.  [find_data_file] changes nothing.  A file it returns exists and
    is one of the two candidates in the source folder, the second only when
    the first does not exist; it returns none only when neither exists; and
    an exception that leaves it is one [exists] raised for a candidate. *)
Theorem find_data_file_exists :
  forall (path world : Type) (os : Os path world) (sp : path)
         (pre : string) (s : state path world),
    let coherence_file := joinpath os sp (pre +:+ "_coherence_scores.json") in
    let relevance_file :=
      joinpath os sp (pre +:+ "_relevance_top_words.json") in
    (find_data_file os sp pre s).1 = s /\
    match (find_data_file os sp pre s).2 with
    | Ok (Some f) =>
        path_exists os (fs s) f = Ok true /\
        (f = coherence_file \/
         f = relevance_file /\
         path_exists os (fs s) coherence_file = Ok false)
    | Ok None =>
        path_exists os (fs s) coherence_file = Ok false /\
        path_exists os (fs s) relevance_file = Ok false
    | Raise e =>
        path_exists os (fs s) coherence_file = Raise e \/
        path_exists os (fs s) coherence_file = Ok false /\
        path_exists os (fs s) relevance_file = Raise e
    end.
Proof.
  intros path world os sp pre s. cbn zeta.
  rewrite find_data_file_cases. split; [done|]. cbn [snd].
  destruct (path_exists os (fs s)
              (joinpath os sp (pre +:+ "_coherence_scores.json")))
    as [[|]|e] eqn:E1; [by auto| |by auto].
  destruct (path_exists os (fs s)
              (joinpath os sp (pre +:+ "_relevance_top_words.json")))
    as [[|]|e] eqn:E2; auto.
Qed.

(** ** [generate_app]: how it fails and what it leaves *)

(** X9.  When the source folder does not exist, [generate_app] raises
    [FileNotFoundError] with the folder's path and does nothing else,
    whatever its other arguments are. *)
Theorem generate_app_missing_folder :
  forall (path world : Type) (os : Os path world) (sf : string)
         (od p m d : option string) (s : state path world),
    path_exists os (fs s) (under_base os sf) = Ok false ->
    generate_app os sf od p m d s
    = (s, Raise (FileNotFoundError
                   ("Source folder not found: " +:+ str os (under_base os sf)))).
Proof.
  intros path world os sf od p m d s H.
  apply generate_app_fails_early.
  unfold generate_app_metadata. by rewrite bind_eq, do_exists_eq, H.
Qed.

Lemma generate_app_missing_folder_witness :
  generate_app Host.os Host.heart (Some "out") (Some "run1") (Some "nmtf")
    (Some "heart") Host.start_bare
  = (Host.start_bare,
     Raise (FileNotFoundError
              ("Source folder not found: " +:+ Host.heart))).
Proof.
  apply (generate_app_missing_folder string Host.world Host.os).
  vm_compute. reflexivity.
Defined.

(** X10.  An exception raised while the document is loaded or while its
    topics are counted leaves [generate_app] as it is, and nothing has been
    written or printed by then. *)
Theorem generate_app_document_error :
  forall (path world : Type) (os : Os path world) (sf : string)
         (od p m d : option string) (s : state path world)
         (md : metadata) (pre : string) (f : path) (e : exn),
    path_exists os (fs s) (under_base os sf) = Ok true ->
    initial_metadata (name os (under_base os sf)) p m d = Ok (md, pre) ->
    (find_data_file os (under_base os sf) pre s).2 = Ok (Some f) ->
    (json_load os (fs s) f ≫= get_topic_count) = Raise e ->
    generate_app os sf od p m d s = (s, Raise e).
Proof.
  intros path world os sf od p m d s md pre f e He Hi Hf Hl.
  apply find_data_file_run in Hf.
  apply generate_app_fails_early.
  unfold generate_app_metadata. rewrite bind_eq, do_exists_eq, He. cbn.
  rewrite bind_eq. unfold lift at 1. rewrite Hi.
  rewrite bind_eq, Hf, bind_eq. unfold load_topic_data, look_r at 1.
  destruct (json_load os (fs s) f) as [data|e']; cbn in Hl |- *;
    [|by simplify_eq].
  rewrite bind_eq. unfold lift at 1.
  change (result_bind _ _ get_topic_count (Ok data))
    with (get_topic_count data) in Hl.
  by rewrite Hl.
Qed.

Lemma generate_app_document_error_witness :
  generate_app Host.os Host.torn None None None None Host.start_torn
  = (Host.start_torn,
     Raise Host.no_document).
Proof.
  eapply (generate_app_document_error string Host.world Host.os Host.torn
            None None None None Host.start_torn);
    vm_compute; reflexivity.
Defined.

(** X11.  Given a non-empty [prefix], [method] and [dataset],
    [generate_app] does not read the folder name: the data file is looked
    for under the prefix, and the descriptor is the given dataset and
    method with the topic count of the document. *)
Theorem generate_app_overrides :
  forall (path world : Type) (os : Os path world) (sf : string)
         (pre mm dd : string) (s : state path world)
         (f : path) (data : json) (n : nat),
    pre <> "" -> mm <> "" -> dd <> "" ->
    path_exists os (fs s) (under_base os sf) = Ok true ->
    (find_data_file os (under_base os sf) pre s).2 = Ok (Some f) ->
    json_load os (fs s) f = Ok data ->
    get_topic_count data = Ok n ->
    n <> 0 ->
    generate_app_metadata os sf (Some pre) (Some mm) (Some dd) s
    = (s, Ok (Prepared (under_base os sf) pre f (Metadata dd mm n) n)).
Proof.
  intros path world os sf pre mm dd s f data n Hp Hm Hd He Hf Hl Hc Hn.
  apply find_data_file_run in Hf.
  assert (initial_metadata (name os (under_base os sf))
            (Some pre) (Some mm) (Some dd) = Ok (Metadata dd mm 0, pre)) as Hi.
  { unfold initial_metadata. by destruct pre, mm, dd. }
  rewrite (generate_app_metadata_run os sf _ _ _ s _ _ _ _ _ He Hi Hf Hl Hc).
  apply Nat.eqb_neq in Hn. by rewrite Hn.
Qed.

Lemma generate_app_overrides_witness :
  parse_folder_name (name Host.os (under_base Host.os Host.study))
  = Ok None /\
  exists f,
    generate_app_metadata Host.os Host.study
      (Some "run1") (Some "pnmf") (Some "studyXYZ") Host.start_odd
    = (Host.start_odd,
       Ok (Prepared (under_base Host.os Host.study) "run1" f
             (Metadata "studyXYZ" "pnmf" 1) 1)).
Proof.
  split; [vm_compute; reflexivity|]. eexists.
  eapply (generate_app_overrides string Host.world Host.os Host.study
            "run1" "pnmf" "studyXYZ" Host.start_odd);
    [ discriminate | discriminate | discriminate
    | vm_compute; reflexivity | vm_compute; reflexivity
    | vm_compute; reflexivity | vm_compute; reflexivity
    | discriminate ].
Defined.

(** X12.  When [generate_app] succeeds, what it returns is the text of
    the output directory: the [output_dir] argument when that is given and
    not empty, and else the directory beside the program whose name is made
    from the descriptor with the topic count of the document. *)
Theorem generate_app_returns_output_path :
  forall (path world : Type) (os : Os path world) (sf : string)
         (od p m d : option string) (s : state path world) (v : string),
    (generate_app os sf od p m d s).2 = Ok v ->
    exists a : prepared path,
      generate_app_metadata os sf p m d s = (s, Ok a) /\
      v = str os (output_path_of os od (meta a)).
Proof.
  intros path world os sf od p m d s v H.
  apply generate_app_succeeds in H as (a & s' & Hm & H & _).
  exists a. split; [done|]. by eapply generate_app_output_value.
Qed.

Lemma generate_app_returns_output_path_witness :
  exists a : prepared string,
    generate_app_metadata Host.os Host.heart None None None Host.start
    = (Host.start, Ok a) /\
    "/repo/heart-failure-nmtf-2"
    = str Host.os (output_path_of Host.os None (meta a)).
Proof.
  apply (generate_app_returns_output_path string Host.world Host.os
           Host.heart None None None None Host.start).
  vm_compute. reflexivity.
Defined.




(** X15.  The names for the t-SNE image are tried in order until [exists]
    does not answer [False]: when it answers [True], that file is copied to
    [images/tsne.png] and the later names are not looked at; when it
    raises, the exception leaves and nothing is copied; and when no name
    exists, nothing is copied. *)
Theorem copy_first_tsne_first :
  forall (path world : Type) (os : Os path world) (sp op : path)
         (names : list string) (s : state path world),
    copy_first_tsne os sp op names s =
    match List.find (fun n => match path_exists os (fs s) (joinpath os sp n)
                              with
                              | Ok false => false
                              | _ => true
                              end) names with
    | Some n =>
        match path_exists os (fs s) (joinpath os sp n) with
        | Ok _ =>
            (do_copy os (joinpath os sp n)
               (joinpath os (joinpath os op "images") "tsne.png");;
             mret true) s
        | Raise e => (s, Raise e)
        end
    | None => (s, Ok false)
    end.
Proof.
  intros path world os sp op names s.
  induction names as [|n names IH]; [done|].
  cbn [copy_first_tsne List.find]. rewrite bind_eq, do_exists_eq.
  destruct (path_exists os (fs s) (joinpath os sp n)) as [[|]|e] eqn:E;
    cbv beta iota; rewrite ?E; [reflexivity | exact IH | reflexivity].
Qed.

Section Loop.

Context {path world : Type} (os : Os path world).




Lemma all_apps_loop_skips folders generated s :
  Forall (fun f => wanted os s f = Ok false) folders ->
  all_apps_loop os folders generated s = (s, Ok generated).
Proof.
  induction 1 as [|f rest Hf _ IH]; [done|].
  by rewrite all_apps_loop_step, Hf.
Qed.

Lemma print_out line s :
  out (print os line s).1 = out s ++ [Stdout line].
Proof. unfold print, act. by destruct (stdout_write os line (fs s)). Qed.

(** On a console that takes every line, [print] does not raise. *)
Lemma print_Ok line s :
  (forall l w, (stdout_write os l w).2 = None) ->
  (print os line s).2 = Ok tt.
Proof.
  intros H. unfold print, act. specialize (H line (fs s)).
  by destruct (stdout_write os line (fs s)) as [w [e|]].
Qed.

Lemma for_each_print (f : string -> string) (l : list string) :
  (forall l w, (stdout_write os l w).2 = None) ->
  forall s,
    (for_each l (fun x => print os (f x)) s).2 = Ok tt /\
    out (for_each l (fun x => print os (f x)) s).1
    = out s ++ map (fun x => Stdout (f x)) l.
Proof.
  intros H. induction l as [|x l IH]; intros s; cbn [for_each map].
  - by rewrite app_nil_r.
  - rewrite bind_eq.
    pose proof (print_Ok (f x) s H) as Hr.
    pose proof (print_out (f x) s) as Ho.
    destruct (print os (f x) s) as [s1 [[]|e]]; [|done].
    cbn in Ho. destruct (IH s1) as [-> ->]. split; [done|].
    by rewrite Ho, <- app_assoc.
Qed.

(** [main] is its three header lines and then the rest. *)
Lemma main_header s :
  main os s =
  match (print os (Py.repeat "=" 60);;
         print os "Dynamic Topic Analysis App Generator";;
         print os (Py.repeat "=" 60)) s with
  | (s0, Ok _) =>
      (generated ← generate_all_apps os "to_generate_from";
       print os (String Str.newline (Py.repeat "=" 60));;
       print os "Generation complete!";;
       print os (Py.repeat "=" 60);;
       print os (String Str.newline "Generated:");;
       for_each generated (fun path => print os ("  - " +:+ path));;
       mret 0) s0
  | (s0, Raise e) => (s0, Raise e)
  end.
Proof.
  unfold main. rewrite !bind_eq.
  destruct (print os (Py.repeat "=" 60) s) as [s1 [[]|e]]; [|done].
  rewrite !bind_eq.
  destruct (print os "Dynamic Topic Analysis App Generator" s1)
    as [s2 [[]|e]]; [|done].
  rewrite !bind_eq.
  by destruct (print os (Py.repeat "=" 60) s2) as [s3 [[]|e]].
Qed.

Lemma header_out s :
  ((print os (Py.repeat "=" 60);;
    print os "Dynamic Topic Analysis App Generator";;
    print os (Py.repeat "=" 60)) s).2 = Ok tt ->
  out ((print os (Py.repeat "=" 60);;
        print os "Dynamic Topic Analysis App Generator";;
        print os (Py.repeat "=" 60)) s).1
  = out s ++ [Stdout (Py.repeat "=" 60);
              Stdout "Dynamic Topic Analysis App Generator";
              Stdout (Py.repeat "=" 60)].
Proof.
  rewrite !bind_eq.
  pose proof (print_out (Py.repeat "=" 60) s) as H1.
  destruct (print os (Py.repeat "=" 60) s) as [s1 [[]|e]]; [|done].
  rewrite !bind_eq.
  pose proof (print_out "Dynamic Topic Analysis App Generator" s1) as H2.
  destruct (print os "Dynamic Topic Analysis App Generator" s1)
    as [s2 [[]|e]]; [|done].
  pose proof (print_out (Py.repeat "=" 60) s2) as H3.
  destruct (print os (Py.repeat "=" 60) s2) as [s3 [[]|e]]; [|done].
  intros _. cbn in *. rewrite H3, H2, H1. by rewrite <- !app_assoc.
Qed.

(** The closing lines on a console that takes every line. *)
Lemma main_closing generated s :
  (forall l w, (stdout_write os l w).2 = None) ->
  let fin :=
    (print os (String Str.newline (Py.repeat "=" 60));;
     print os "Generation complete!";;
     print os (Py.repeat "=" 60);;
     print os (String Str.newline "Generated:");;
     for_each generated (fun path => print os ("  - " +:+ path));;
     mret 0) s in
  fin.2 = Ok 0 /\
  out fin.1
  = out s ++
    [Stdout (String Str.newline (Py.repeat "=" 60));
     Stdout "Generation complete!";
     Stdout (Py.repeat "=" 60);
     Stdout (String Str.newline "Generated:")] ++
    map (fun p => Stdout ("  - " +:+ p)) generated.
Proof.
  intros H. cbn zeta.
  rewrite !bind_eq.
  pose proof (print_Ok (String Str.newline (Py.repeat "=" 60)) s H) as R1.
  pose proof (print_out (String Str.newline (Py.repeat "=" 60)) s) as O1.
  destruct (print os (String Str.newline (Py.repeat "=" 60)) s)
    as [s1 [[]|e]]; [|done].
  rewrite !bind_eq.
  pose proof (print_Ok "Generation complete!" s1 H) as R2.
  pose proof (print_out "Generation complete!" s1) as O2.
  destruct (print os "Generation complete!" s1) as [s2 [[]|e]]; [|done].
  rewrite !bind_eq.
  pose proof (print_Ok (Py.repeat "=" 60) s2 H) as R3.
  pose proof (print_out (Py.repeat "=" 60) s2) as O3.
  destruct (print os (Py.repeat "=" 60) s2) as [s3 [[]|e]]; [|done].
  rewrite !bind_eq.
  pose proof (print_Ok (String Str.newline "Generated:") s3 H) as R4.
  pose proof (print_out (String Str.newline "Generated:") s3) as O4.
  destruct (print os (String Str.newline "Generated:") s3)
    as [s4 [[]|e]]; [|done].
  rewrite !bind_eq.
  destruct (for_each_print (fun p => "  - " +:+ p) generated H s4)
    as [R5 O5].
  destruct (for_each generated (fun path => print os ("  - " +:+ path)) s4)
    as [s5 [[]|e]]; [|done].
  cbn in *. split; [done|].
  rewrite O5, O4, O3, O2, O1. by rewrite <- !app_assoc.
Qed.

Lemma sublist_StronglySorted {A} (R : A -> A -> Prop) (l k : list A) :
  sublist l k -> StronglySorted R k -> StronglySorted R l.
Proof.
  induction 1 as [|x l k Hs IH|x l k Hs IH]; intros Hk.
  - done.
  - apply StronglySorted_inv in Hk as [Hk Hx].
    constructor; [by apply IH|].
    rewrite Forall_forall in Hx |- *. intros y Hy. apply Hx.
    by eapply elem_of_sublist.
  - apply StronglySorted_inv in Hk as [Hk _]. by apply IH.
Qed.

End Loop.

(** The order of [str] on texts of code points below 256, which the toy
    paths are compared by. *)
Lemma ascii_compare_N (a b : ascii) :
  Ascii.compare a b = N.compare (N_of_ascii a) (N_of_ascii b).
Proof. done. Qed.

Lemma string_compare_refl (a : string) : String.compare a a = Eq.
Proof.
  induction a as [|c a IH]; [done|]. cbn [String.compare].
  by rewrite ascii_compare_N, N.compare_refl.
Qed.

Lemma string_ltb_asym (a b : string) :
  String.ltb a b = true -> String.ltb b a = false.
Proof.
  unfold String.ltb. rewrite (String.compare_antisym b a).
  by destruct (String.compare a b).
Qed.

Lemma string_compare_trans (a : string) : forall b c,
  String.compare a b <> Gt -> String.compare b c <> Gt ->
  String.compare a c <> Gt.
Proof.
  induction a as [|x a IH]; intros [|y b] [|z c]; cbn [String.compare];
    try done.
  rewrite !ascii_compare_N.
  destruct (N.compare_spec (N_of_ascii x) (N_of_ascii y)) as [Hxy|Hxy|Hxy];
    destruct (N.compare_spec (N_of_ascii y) (N_of_ascii z)) as [Hyz|Hyz|Hyz];
    intros H1 H2; try done.
  - rewrite Hxy, Hyz, N.compare_refl. by apply (IH b c).
  - rewrite Hxy. by apply N.compare_lt_iff in Hyz as ->.
  - rewrite <- Hyz. by apply N.compare_lt_iff in Hxy as ->.
  - assert (N_of_ascii x < N_of_ascii z)%N as Hxz by lia.
    by apply N.compare_lt_iff in Hxz as ->.
Qed.

Lemma string_ltb_false (a b : string) :
  String.ltb b a = false <-> String.compare a b <> Gt.
Proof.
  unfold String.ltb. rewrite (String.compare_antisym a b).
  destruct (String.compare b a); cbn; split; congruence.
Qed.

Lemma string_ltb_negtrans (a b c : string) :
  String.ltb b a = false -> String.ltb c b = false -> String.ltb c a = false.
Proof.
  rewrite !string_ltb_false. apply string_compare_trans.
Qed.

(** ** [generate_all_apps] and [main] at the edges *)

(** X16.  When the source directory does not exist, [generate_all_apps]
    raises [FileNotFoundError] with its path, and nothing has been listed,
    written or printed. *)
Theorem generate_all_apps_missing_dir :
  forall (path world : Type) (os : Os path world) (source_dir : string)
         (s : state path world),
    path_exists os (fs s) (under_base os source_dir) = Ok false ->
    generate_all_apps os source_dir s
    = (s, Raise (FileNotFoundError
                   ("Source directory not found: "
                    +:+ str os (under_base os source_dir)))).
Proof.
  intros path world os source_dir s H.
  unfold generate_all_apps. by rewrite bind_eq, do_exists_eq, H.
Qed.

Lemma generate_all_apps_missing_dir_witness :
  generate_all_apps Host.os "to_generate_from" Host.start_bare
  = (Host.start_bare,
     Raise (FileNotFoundError
              "Source directory not found: /repo/to_generate_from")).
Proof.
  apply (generate_all_apps_missing_dir string Host.world Host.os).
  vm_compute. reflexivity.
Defined.

(** X17.  An exception that leaves [generate_all_apps] is never one that
    [generate_app] raised for a folder and the [try] caught.  It is one
    of: what [exists] raised for the source directory, the
    [FileNotFoundError] for a source directory that does not exist, what
    listing it raised, and, for an entry of the listing, what [is_dir] or
    [parse_folder_name] raised or what printing the line for a failed call
    raised. *)
Theorem generate_all_apps_escapes :
  forall (path world : Type) (os : Os path world) (source_dir : string)
         (s : state path world) (e : exn),
    (generate_all_apps os source_dir s).2 = Raise e ->
    let sp := under_base os source_dir in
    path_exists os (fs s) sp = Raise e \/
    (path_exists os (fs s) sp = Ok false /\
     e = FileNotFoundError ("Source directory not found: " +:+ str os sp)) \/
    iterdir os (fs s) sp = Raise e \/
    exists (listing : list path) (f : path),
      iterdir os (fs s) sp = Ok listing /\ f ∈ listing /\
      ((exists w, is_dir os w f = Raise e) \/
       parse_folder_name (name os f) = Raise e \/
       (exists s0 s1 e0,
          generate_app os (str os f) None None None None s0
          = (s1, Raise e0) /\
          (print os (report os f e0) s1).2 = Raise e)).
Proof.
  intros path world os source_dir s e H. cbn zeta.
  unfold generate_all_apps in H. rewrite bind_eq, do_exists_eq in H.
  destruct (path_exists os (fs s) (under_base os source_dir))
    as [[|]|e1]; cbn in H.
  - rewrite bind_eq in H. unfold look_r at 1 in H.
    destruct (iterdir os (fs s) (under_base os source_dir))
      as [listing|e1].
    + destruct (all_apps_loop_processed os
                  (Py.sorted (path_lt os) listing) [] s)
        as (atts & s' & stop & Hrun & HP).
      rewrite Hrun in H. destruct stop as [e1|]; [|done].
      injection H as ->.
      apply Processed_stop in HP as (f & Hin & Hf).
      do 3 right. exists listing, f. split_and!; [done| |done].
      by rewrite <- (sorted_perm (path_lt os) listing).
    + cbn in H. injection H as ->. right. right. by left.
  - injection H as <-. right. by left.
  - injection H as ->. by left.
Qed.

Lemma generate_all_apps_escapes_witness :
  path_exists Host.os Host.disk_denied
    (under_base Host.os "to_generate_from") = Raise (Host.denied Host.alpha) \/
  (path_exists Host.os Host.disk_denied
     (under_base Host.os "to_generate_from") = Ok false /\
   Host.denied Host.alpha
   = FileNotFoundError
       ("Source directory not found: "
        +:+ str Host.os (under_base Host.os "to_generate_from"))) \/
  iterdir Host.os Host.disk_denied (under_base Host.os "to_generate_from")
  = Raise (Host.denied Host.alpha) \/
  exists (listing : list string) (f : string),
    iterdir Host.os Host.disk_denied (under_base Host.os "to_generate_from")
    = Ok listing /\ f ∈ listing /\
    ((exists w, is_dir Host.os w f = Raise (Host.denied Host.alpha)) \/
     parse_folder_name (name Host.os f) = Raise (Host.denied Host.alpha) \/
     (exists s0 s1 e0,
        generate_app Host.os (str Host.os f) None None None None s0
        = (s1, Raise e0) /\
        (print Host.os (report Host.os f e0) s1).2
        = Raise (Host.denied Host.alpha))).
Proof.
  apply (generate_all_apps_escapes string Host.world Host.os
           "to_generate_from" Host.start_denied (Host.denied Host.alpha)).
  vm_compute. reflexivity.
Defined.

(** X18.  When the loop finds nothing to do for any entry of the source
    directory ([is_dir] answers [False], or [parse_folder_name] returns
    nothing for the name, and neither raises), [generate_all_apps] returns
    the empty list and nothing is written or printed. *)
Theorem generate_all_apps_nothing_wanted :
  forall (path world : Type) (os : Os path world) (source_dir : string)
         (s : state path world) (listing : list path),
    path_exists os (fs s) (under_base os source_dir) = Ok true ->
    iterdir os (fs s) (under_base os source_dir) = Ok listing ->
    Forall (fun f => wanted os s f = Ok false) listing ->
    generate_all_apps os source_dir s = (s, Ok []).
Proof.
  intros path world os source_dir s listing He Hl Hw.
  unfold generate_all_apps. rewrite bind_eq, do_exists_eq, He. cbn.
  rewrite bind_eq. unfold look_r at 1. rewrite Hl.
  apply all_apps_loop_skips. by rewrite sorted_perm.
Qed.

Lemma generate_all_apps_nothing_wanted_witness :
  generate_all_apps Host.os "to_generate_from" Host.start_plain
  = (Host.start_plain, Ok []).
Proof.
  apply (generate_all_apps_nothing_wanted string Host.world Host.os
           "to_generate_from" Host.start_plain
           ["/repo/to_generate_from/scratch";
            "/repo/to_generate_from/notes.txt"]).
  - vm_compute. reflexivity.
  - vm_compute. reflexivity.
  - repeat (constructor; [vm_compute; reflexivity|]). constructor.
Defined.


(** X20.  When the order of paths is a strict weak order, the folders for
    which [generate_all_apps] calls [generate_app] are taken in ascending
    order, whatever order the directory was listed in, whether the run goes
    through the whole listing or is left by an exception. *)
Theorem generate_all_apps_ascending :
  forall (path world : Type) (os : Os path world) (source_dir : string)
         (s : state path world) (listing : list path),
    (forall a b, path_lt os a b = true -> path_lt os b a = false) ->
    (forall a b c, path_lt os b a = false -> path_lt os c b = false ->
                   path_lt os c a = false) ->
    path_exists os (fs s) (under_base os source_dir) = Ok true ->
    iterdir os (fs s) (under_base os source_dir) = Ok listing ->
    exists (atts : list (attempt path)) (s' : state path world)
           (stop : option exn),
      generate_all_apps os source_dir s = (s', ending atts stop) /\
      Processed os (Py.sorted (path_lt os) listing) s atts s' stop /\
      StronglySorted (fun a b => path_lt os b a = false) (map folder atts).
Proof.
  intros path world os source_dir s listing Hasym Htrans He Hl.
  destruct (generate_all_apps_processed os source_dir s listing He Hl)
    as (atts & s' & stop & Hrun & HP).
  exists atts, s', stop. split_and!; [done|done|].
  eapply sublist_StronglySorted; [by eapply Processed_sublist|].
  apply Sorted_StronglySorted; [|by apply sorted_sorted].
  intros a b c Hab Hbc. by eapply Htrans.
Qed.

Lemma generate_all_apps_ascending_witness :
  exists (atts : list (attempt string)) (s' : state string Host.world)
         (stop : option exn),
    generate_all_apps Host.os "to_generate_from" Host.start
    = (s', ending atts stop) /\
    Processed Host.os
      (Py.sorted (path_lt Host.os)
         ["/repo/to_generate_from/notes.txt"; Host.zeta; Host.bad;
          Host.heart])
      Host.start atts s' stop /\
    StronglySorted (fun a b => path_lt Host.os b a = false)
      (map folder atts).
Proof.
  apply (generate_all_apps_ascending string Host.world Host.os
           "to_generate_from" Host.start).
  - apply string_ltb_asym.
  - apply string_ltb_negtrans.
  - vm_compute. reflexivity.
  - vm_compute. reflexivity.
Defined.

(** X21.  On a console that takes every line, with a source directory
    that exists and can be listed, [main] prints its three header lines and
    goes through the folders as [generate_all_apps] does.  When that run
    goes through the whole listing, [main] returns 0, whether calls of
    [generate_app] failed or not, after four closing lines and one line
    [  - path] for each app generated; when the run is left by an
    exception, so is [main]. *)
Theorem main_returns_zero :
  forall (path world : Type) (os : Os path world)
         (s : state path world) (listing : list path),
    (forall line w, (stdout_write os line w).2 = None) ->
    let s0 :=
      ((print os (Py.repeat "=" 60);;
        print os "Dynamic Topic Analysis App Generator";;
        print os (Py.repeat "=" 60)) s).1 in
    path_exists os (fs s0) (under_base os "to_generate_from") = Ok true ->
    iterdir os (fs s0) (under_base os "to_generate_from") = Ok listing ->
    exists (atts : list (attempt path)) (s1 : state path world)
           (stop : option exn),
      out s0 = out s ++ [Stdout (Py.repeat "=" 60);
                         Stdout "Dynamic Topic Analysis App Generator";
                         Stdout (Py.repeat "=" 60)] /\
      Processed os (Py.sorted (path_lt os) listing) s0 atts s1 stop /\
      (main os s).2 = match stop with
                      | None => Ok 0
                      | Some e => Raise e
                      end /\
      (stop = None ->
       out (main os s).1
       = out s1 ++
         [Stdout (String Str.newline (Py.repeat "=" 60));
          Stdout "Generation complete!";
          Stdout (Py.repeat "=" 60);
          Stdout (String Str.newline "Generated:")] ++
         map (fun p => Stdout ("  - " +:+ p)) (successes atts)).
Proof.
  intros path world os s listing Hcon s0 He Hl.
  assert (((print os (Py.repeat "=" 60);;
            print os "Dynamic Topic Analysis App Generator";;
            print os (Py.repeat "=" 60)) s).2 = Ok tt) as Hhdr.
  { rewrite !bind_eq.
    pose proof (print_Ok os (Py.repeat "=" 60) s Hcon) as R1.
    destruct (print os (Py.repeat "=" 60) s) as [s1 [[]|e]]; [|done].
    rewrite !bind_eq.
    pose proof (print_Ok os "Dynamic Topic Analysis App Generator" s1 Hcon)
      as R2.
    destruct (print os "Dynamic Topic Analysis App Generator" s1)
      as [s2 [[]|e]]; [|done].
    apply print_Ok, Hcon. }
  pose proof (header_out os s Hhdr) as Hout. fold s0 in Hout.
  destruct (generate_all_apps_processed os "to_generate_from" s0 listing
              He Hl) as (atts & s1 & stop & Hrun & HP).
  exists atts, s1, stop. split; [done|]. split; [done|].
  rewrite main_header.
  destruct ((print os (Py.repeat "=" 60);;
             print os "Dynamic Topic Analysis App Generator";;
             print os (Py.repeat "=" 60)) s) as [s0' [[]|e]] eqn:Eh;
    [|done].
  cbn in s0. subst s0. rewrite bind_eq, Hrun.
  destruct stop as [e|]; cbn [ending]; [by split|].
  destruct (main_closing os (successes atts) s1 Hcon) as [R O].
  split; [exact R|]. intros _. exact O.
Qed.

Lemma main_returns_zero_witness :
  exists (atts : list (attempt string)) (s1 : state string Host.world)
         (stop : option exn),
    out ((print Host.os (Py.repeat "=" 60);;
          print Host.os "Dynamic Topic Analysis App Generator";;
          print Host.os (Py.repeat "=" 60)) Host.start).1
    = out Host.start ++ [Stdout (Py.repeat "=" 60);
                         Stdout "Dynamic Topic Analysis App Generator";
                         Stdout (Py.repeat "=" 60)] /\
    Processed Host.os
      (Py.sorted (path_lt Host.os)
         ["/repo/to_generate_from/notes.txt"; Host.zeta; Host.bad;
          Host.heart])
      ((print Host.os (Py.repeat "=" 60);;
        print Host.os "Dynamic Topic Analysis App Generator";;
        print Host.os (Py.repeat "=" 60)) Host.start).1
      atts s1 stop /\
    (main Host.os Host.start).2 = match stop with
                                  | None => Ok 0
                                  | Some e => Raise e
                                  end /\
    (stop = None ->
     out (main Host.os Host.start).1
     = out s1 ++
       [Stdout (String Str.newline (Py.repeat "=" 60));
        Stdout "Generation complete!";
        Stdout (Py.repeat "=" 60);
        Stdout (String Str.newline "Generated:")] ++
       map (fun p => Stdout ("  - " +:+ p)) (successes atts)).
Proof.
  apply (main_returns_zero string Host.world Host.os Host.start).
  - intros line w. reflexivity.
  - vm_compute. reflexivity.
  - vm_compute. reflexivity.
Defined.

(** X22.  [main] does not handle a missing source directory: when its
    three header lines are printed and the directory does not exist, the
    [FileNotFoundError] of [generate_all_apps] leaves it, and no closing
    line is printed.  An exception of printing a header line leaves it as
    well. *)
Theorem main_missing_dir :
  forall (path world : Type) (os : Os path world) (s : state path world),
    let header :=
      (print os (Py.repeat "=" 60);;
       print os "Dynamic Topic Analysis App Generator";;
       print os (Py.repeat "=" 60)) s in
    (header.2 = Ok tt ->
     path_exists os (fs header.1) (under_base os "to_generate_from")
     = Ok false ->
     main os s
     = (header.1,
        Raise (FileNotFoundError
                 ("Source directory not found: "
                  +:+ str os (under_base os "to_generate_from")))) /\
     out header.1
     = out s ++ [Stdout (Py.repeat "=" 60);
                 Stdout "Dynamic Topic Analysis App Generator";
                 Stdout (Py.repeat "=" 60)]) /\
    (forall e, header.2 = Raise e -> main os s = (header.1, Raise e)).
Proof.
  intros path world os s header.
  pose proof (header_out os s) as Hout. fold header in Hout.
  pose proof (main_header os s) as Hm. fold header in Hm.
  destruct header as [s0 [[]|e]]; cbn [fst snd] in *.
  - split; [|done]. intros _ He. split; [|by apply Hout].
    rewrite Hm. unfold generate_all_apps.
    by rewrite !bind_eq, do_exists_eq, He.
  - split; [done|]. by intros ? [= <-].
Qed.

Lemma main_missing_dir_witness :
  main Host.os Host.start_bare
  = (((print Host.os (Py.repeat "=" 60);;
       print Host.os "Dynamic Topic Analysis App Generator";;
       print Host.os (Py.repeat "=" 60)) Host.start_bare).1,
     Raise (FileNotFoundError
              ("Source directory not found: "
               +:+ str Host.os (under_base Host.os "to_generate_from")))) /\
  out ((print Host.os (Py.repeat "=" 60);;
        print Host.os "Dynamic Topic Analysis App Generator";;
        print Host.os (Py.repeat "=" 60)) Host.start_bare).1
  = out Host.start_bare ++
    [Stdout (Py.repeat "=" 60);
     Stdout "Dynamic Topic Analysis App Generator";
     Stdout (Py.repeat "=" 60)].
Proof.
  apply (proj1 (main_missing_dir string Host.world Host.os Host.start_bare)).
  - vm_compute. reflexivity.
  - vm_compute. reflexivity.
Defined.
